(** * Open-in-GitHub: git metadata resolution and blob URL construction

    A shallow embedding of [git.ts] (repository resolver and URL builder)
    and of the command callback of [extension.ts].

    - JavaScript strings are [string]s; the built-in methods the code calls
      ([startsWith], [endsWith], [includes], [slice], [trim], [replace])
      are written out in [JsString].
    - Line numbers are JavaScript numbers holding integers; they are [Z],
      printed in decimal as the template literals do.
    - [try]/[catch] and [throw] are a completion type ([Normal]/[Throw]);
      code that talks to git, the console or the editor host runs in a
      monad that threads the host's world and collects the emitted events. *)

From Stdlib Require Import ZArith Lia Bool List Ascii String DecimalString.
Import ListNotations.

Local Open Scope string_scope.

(** ** JavaScript string built-ins *)

Module JsString.

(** [s.startsWith(p)] *)
Definition startsWith (s p : string) : bool := String.prefix p s.

(** [s.endsWith(suf)]: some tail of [s] is [suf]. *)
Fixpoint endsWith (s suf : string) : bool :=
  (s =? suf) ||
  match s with
  | EmptyString => false
  | String _ s' => endsWith s' suf
  end.

(** [s.includes(sub)]: [sub] starts at some position of [s]. *)
Fixpoint includes (s sub : string) : bool :=
  String.prefix sub s ||
  match s with
  | EmptyString => false
  | String _ s' => includes s' sub
  end.

(** [s.slice(n)] for [n >= 0]: drop the first [n] characters. *)
Fixpoint sliceFrom (n : nat) (s : string) : string :=
  match n, s with
  | O, _ => s
  | S _, EmptyString => EmptyString
  | S n', String _ s' => sliceFrom n' s'
  end.

(** [s.slice(0, -k)]: drop the last [k] characters (nothing is left when
    [s] is shorter than [k]). *)
Definition sliceDropLast (k : nat) (s : string) : string :=
  String.substring 0 (String.length s - k) s.

(** White space and line terminators removed by [trim], as far as they
    fit a one-byte character: TAB, LF, VT, FF, CR, SPACE, NBSP. *)
Definition isWhiteSpace (c : ascii) : bool :=
  let n := nat_of_ascii c in
  ((9 <=? n)%nat && (n <=? 13)%nat) || (n =? 32)%nat || (n =? 160)%nat.

Fixpoint trimStart (s : string) : string :=
  match s with
  | EmptyString => EmptyString
  | String c s' => if isWhiteSpace c then trimStart s' else s
  end.

Fixpoint trimEnd (s : string) : string :=
  match s with
  | EmptyString => EmptyString
  | String c s' =>
      match trimEnd s' with
      | EmptyString => if isWhiteSpace c then EmptyString else String c EmptyString
      | r => String c r
      end
  end.

(** [s.trim()] *)
Definition trim (s : string) : string := trimEnd (trimStart s).

(** [s.replace(/\\/g, '/')] *)
Fixpoint replaceBackslashes (s : string) : string :=
  match s with
  | EmptyString => EmptyString
  | String c s' =>
      String (if Ascii.eqb c "\"%char then "/"%char else c) (replaceBackslashes s')
  end.

(** A string is falsy exactly when it is empty. *)
Definition truthy (s : string) : bool :=
  match s with EmptyString => false | _ => true end.

(** [`${n}`] for an integer-valued number. *)
Definition ofNumber (n : Z) : string := NilZero.string_of_int (Z.to_int n).

End JsString.

Import JsString.

(** ** Completions, thrown values and the host *)

(** What a [catch (error)] clause receives.  The code only ever looks at
    [error instanceof Error ? error.message : String(error)]. *)
Inductive Thrown : Type :=
| ErrorObject (message : string)
| OtherValue (text : string).

Definition describe (error : Thrown) : string :=
  match error with
  | ErrorObject message => message
  | OtherValue text => text
  end.

(** How the evaluation of a piece of code ends: it yields a value or it
    raises. *)
Inductive Completion (A : Type) : Type :=
| Normal (a : A)
| Throw (error : Thrown).
Arguments Normal {A} a.
Arguments Throw {A} error.

(** A promise handed back by the host, seen once settled. *)
Inductive Promise (A : Type) : Type :=
| Fulfilled (a : A)
| Rejected (error : Thrown).
Arguments Fulfilled {A} a.
Arguments Rejected {A} error.

(** Values that reach [buildGitHubUrl] in the place of a file path (the
    tests pass [null as any]). *)
Inductive JsValue : Type :=
| JsNull
| JsUndefined
| JsNum (n : Z)
| JsStr (s : string).

(** What [child_process.exec] hands to its callback:
    [error] (its [message], when there is one), [stdout] and [stderr]. *)
Record ExecReply : Type := MkExecReply {
  exec_error : option string;
  exec_stdout : string;
  exec_stderr : string
}.

Record Uri : Type := MkUri { uri_text : string }.

(** The editor objects of the host.  Every property the command reads is a
    getter of a host object: reading it yields a value or raises. *)
Record Selection : Type := MkSelection {
  start_line : Completion Z;
  end_line : Completion Z;
  isEmpty : Completion bool
}.

Record TextEditor : Type := MkTextEditor {
  document_uri_fsPath : Completion string;
  selection : Completion Selection
}.

(** What the code does to the outside, in order. *)
Inductive Event : Type :=
| ConsoleError (message : string)
| ConsoleLog (message : string)
| ShowErrorMessage (message : string)
| OpenExternal (target : Uri).

(** The collaborators outside the repository: [child_process], Node's
    [path] on strings, and the [vscode] API. *)
Class Host : Type := {
  World : Type;
  cp_exec : string -> string -> World -> ExecReply * World;
  path_dirname : string -> string;
  path_relative_str : string -> string -> string;
  window_activeTextEditor : World -> Completion (option TextEditor);
  Uri_parse : string -> Completion Uri;
  env_openExternal : Uri -> World -> Completion (Promise bool) * World
}.

(** ** git.ts: remote normalization *)

(** [x.endsWith('.git') ? x.slice(0, -4) : x], the expression both
    branches of [normalizeGitHubUrl] apply. *)
Definition stripDotGit (x : string) : string :=
  if endsWith x ".git" then sliceDropLast 4 x else x.

Definition normalizeGitHubUrl (remoteUrl : string) : option string :=
  if startsWith remoteUrl "git@github.com:" then
    let sshPath := sliceFrom (String.length "git@github.com:") remoteUrl in
    let repoPath := stripDotGit sshPath in
    Some ("https://github.com/" ++ repoPath)
  else if includes remoteUrl "github.com" then
    Some (stripDotGit remoteUrl)
  else
    None.

(** ** git.ts: the URL builder *)

Record RepoInfo : Type := MkRepoInfo {
  remoteUrl : string;
  branch : string;
  rootPath : string
}.

(** [try { body } catch (error) { handler }] for code without effects. *)
Definition tryCatchPure {A : Type} (body : Completion A) (handler : Thrown -> Completion A)
  : Completion A :=
  match body with
  | Normal a => Normal a
  | Throw error => handler error
  end.

(** The optional parameter [endLineNumber?: number]: [None] is [undefined].
    [truthyNumber] is its truthiness ([undefined] and [0] are falsy),
    [strictNotEqual] is [endLineNumber !== startLineNumber], and
    [ofOptionalNumber] is [`${endLineNumber}`]. *)
Definition truthyNumber (n : option Z) : bool :=
  match n with
  | None => false
  | Some v => negb (v =? 0)%Z
  end.

Definition strictNotEqual (n : option Z) (m : Z) : bool :=
  match n with
  | None => true
  | Some v => negb (v =? m)%Z
  end.

Definition ofOptionalNumber (n : option Z) : string :=
  match n with
  | None => "undefined"
  | Some v => ofNumber v
  end.

Section Builder.
Context {host : Host}.

(** [path.relative(from, to)]: Node validates that both arguments are
    strings and raises a [TypeError] otherwise. *)
Definition path_relative (from to : JsValue) : Completion string :=
  match from, to with
  | JsStr f, JsStr t => Normal (path_relative_str f t)
  | _, _ => Throw (ErrorObject "ERR_INVALID_ARG_TYPE")
  end.

Definition buildGitHubUrl (repoInfo : RepoInfo) (filePath : JsValue)
           (startLineNumber : Z) (endLineNumber : option Z) : Completion (option string) :=
  tryCatchPure
    match path_relative (JsStr (rootPath repoInfo)) filePath with
    | Throw error => Throw error
    | Normal relative =>
        let relativePath := replaceBackslashes relative in
        if truthyNumber endLineNumber && strictNotEqual endLineNumber startLineNumber then
          Normal (Some (remoteUrl repoInfo ++ "/blob/" ++ branch repoInfo ++ "/"
                        ++ relativePath ++ "#L" ++ ofNumber startLineNumber
                        ++ "-L" ++ ofOptionalNumber endLineNumber))
        else
          Normal (Some (remoteUrl repoInfo ++ "/blob/" ++ branch repoInfo ++ "/"
                        ++ relativePath ++ "#L" ++ ofNumber startLineNumber))
    end
    (fun _ => Normal None).

End Builder.

(** ** Code with effects *)

Section Effects.
Context {host : Host}.

(** One run of a piece of code from a world of the host: how it ends,
    the world it leaves, and what it did to the outside. *)
Record Run (A : Type) : Type := MkRun {
  outcome : Completion A;
  world : World;
  events : list Event
}.
Arguments MkRun {A} outcome world events.
Arguments outcome {A} r.
Arguments world {A} r.
Arguments events {A} r.

Definition M (A : Type) : Type := World -> Run A.

Definition ret {A : Type} (a : A) : M A :=
  fun w => MkRun (Normal a) w [].

Definition throw {A : Type} (error : Thrown) : M A :=
  fun w => MkRun (Throw error) w [].

Definition bind {A B : Type} (m : M A) (k : A -> M B) : M B :=
  fun w =>
    let r := m w in
    match outcome r with
    | Normal a =>
        let r' := k a (world r) in
        MkRun (outcome r') (world r') (events r ++ events r')
    | Throw error => MkRun (Throw error) (world r) (events r)
    end.

(** [try { body } catch (error) { handler }] *)
Definition tryCatch {A : Type} (body : M A) (handler : Thrown -> M A) : M A :=
  fun w =>
    let r := body w in
    match outcome r with
    | Normal a => r
    | Throw error =>
        let r' := handler error (world r) in
        MkRun (outcome r') (world r') (events r ++ events r')
    end.

(** Evaluating code without effects, or reading a getter. *)
Definition eval {A : Type} (c : Completion A) : M A :=
  fun w => MkRun c w [].

Definition emit (e : Event) : M unit :=
  fun w => MkRun (Normal tt) w [e].

End Effects.

Arguments MkRun {host A} outcome world events.
Arguments outcome {host A} r.
Arguments world {host A} r.
Arguments events {host A} r.

Declare Scope js_scope.
Delimit Scope js_scope with js.
Notation "x <- m ;; k" := (bind m (fun x => k))
  (at level 61, m at next level, right associativity) : js_scope.
Notation "m ;; k" := (bind m (fun _ => k))
  (at level 61, right associativity) : js_scope.

Local Open Scope js_scope.

(** ** git.ts: the repository resolver *)

(** A [string | null] value: [null] and the empty string are falsy; a
    truthy one is a non-empty string. *)
Definition truthyString (v : option string) : option string :=
  match v with
  | Some s => if truthy s then Some s else None
  | None => None
  end.

Section Resolver.
Context {host : Host}.

Definition console_error (message : string) : M unit := emit (ConsoleError message).
Definition console_log (message : string) : M unit := emit (ConsoleLog message).

(** The promise of [executeCommand], awaited: rejection is a throw. *)
Definition executeCommand (command cwd : string) : M string :=
  fun w =>
    let (reply, w') := cp_exec command cwd w in
    match exec_error reply with
    | Some message =>
        let stderr := trim (exec_stderr reply) in
        MkRun (Throw (ErrorObject ("Command failed: "
                                   ++ (if truthy stderr then stderr else message))))
              w' []
    | None => MkRun (Normal (trim (exec_stdout reply))) w' []
    end.

Definition getGitRootPath (filePath : string) : M (option string) :=
  tryCatch
    (let cwd := path_dirname filePath in
     result <- executeCommand "git rev-parse --show-toplevel" cwd ;;
     ret (Some result))
    (fun _ => ret None).

Definition getRemoteUrl (repoPath : string) : M (option string) :=
  tryCatch
    (remoteUrl <- executeCommand "git config --get remote.origin.url" repoPath ;;
     ret (normalizeGitHubUrl remoteUrl))
    (fun _ => ret None).

(** The inner [try] either falls through ([None]) or leaves the function
    with a [return] from its [catch] clause ([Some] of the returned
    value). *)
Definition getCurrentBranch (repoPath : string) : M (option string) :=
  tryCatch
    (returned <-
       tryCatch
         (_ <- executeCommand "git rev-parse HEAD" repoPath ;;
          ret None)
         (fun _ =>
            tryCatch
              (symbolicRef <- executeCommand "git symbolic-ref --short HEAD" repoPath ;;
               ret (Some symbolicRef))
              (fun _ => ret (Some "main"))) ;;
     match returned with
     | Some value => ret (Some value)
     | None =>
         branch <- executeCommand "git rev-parse --abbrev-ref HEAD" repoPath ;;
         if branch =? "HEAD" then
           commitHash <- executeCommand "git rev-parse HEAD" repoPath ;;
           ret (Some commitHash)
         else
           ret (Some branch)
     end)
    (fun _ => ret None).

Definition getRepoInfo (filePath : string) : M (option RepoInfo) :=
  tryCatch
    (rootPath <- getGitRootPath filePath ;;
     match truthyString rootPath with
     | None =>
         let error := ErrorObject "Not a git repository" in
         console_error ("Failed to get git repository information: " ++ describe error) ;;
         throw error
     | Some rootPath =>
         remoteUrl <- getRemoteUrl rootPath ;;
         match truthyString remoteUrl with
         | None =>
             let error := ErrorObject "No GitHub remote found" in
             console_error ("Failed to get git repository information: "
                            ++ describe error ++ ", check remote configuration") ;;
             throw error
         | Some remoteUrl =>
             branch <- getCurrentBranch rootPath ;;
             match truthyString branch with
             | None =>
                 let error := ErrorObject "Could not determine current branch or commit" in
                 console_error ("Failed to get git repository information: "
                                ++ describe error) ;;
                 throw error
             | Some branch => ret (Some (MkRepoInfo remoteUrl branch rootPath))
             end
         end
     end)
    (fun error =>
       console_error ("Git error details: " ++ describe error) ;;
       ret None).

End Resolver.

(** ** extension.ts: the command callback *)

Section Command.
Context {host : Host}.

Definition showErrorMessage (message : string) : M unit := emit (ShowErrorMessage message).

(** [vscode.env.openExternal(uri)]: the returned promise is not awaited,
    so only a synchronous failure of the call is seen here. *)
Definition openExternal (target : Uri) : M (Promise bool) :=
  fun w =>
    let (r, w') := env_openExternal target w in
    MkRun r w' [OpenExternal target].

(** The body of the [try] block, entered once the editor state has been
    read. *)
Definition openInGithub_guarded (filePath : string) (selection : Selection)
           (startLine endLine : Z) : M unit :=
  repoInfo <- getRepoInfo filePath ;;
  match repoInfo with
  | None =>
      showErrorMessage "Could not determine GitHub repository information" ;;
      console_error "Failed to get GitHub repository information. Check the logs for more details." ;;
      ret tt
  | Some repoInfo =>
      empty <- eval (isEmpty selection) ;;
      githubUrl <-
        eval (if negb empty && negb (startLine =? endLine)%Z then
                buildGitHubUrl repoInfo (JsStr filePath) startLine (Some endLine)
              else
                buildGitHubUrl repoInfo (JsStr filePath) startLine None) ;;
      match truthyString githubUrl with
      | None =>
          showErrorMessage "Failed to build GitHub URL" ;;
          ret tt
      | Some githubUrl =>
          target <- eval (Uri_parse githubUrl) ;;
          _ <- openExternal target ;;
          console_log ("Opening " ++ githubUrl) ;;
          ret tt
      end
  end.

(** The callback registered for [open-in-github-simple.openInGithub].
    A [Throw] outcome is the rejection of the promise the host gets. *)
Definition openInGithub : M unit :=
  editor <- (fun w => MkRun (window_activeTextEditor w) w []) ;;
  match editor with
  | None =>
      showErrorMessage "No active editor found" ;;
      ret tt
  | Some editor =>
      filePath <- eval (document_uri_fsPath editor) ;;
      selection <- eval (selection editor) ;;
      startLine0 <- eval (start_line selection) ;;
      let startLine := (startLine0 + 1)%Z in
      endLine0 <- eval (end_line selection) ;;
      let endLine := (endLine0 + 1)%Z in
      tryCatch
        (openInGithub_guarded filePath selection startLine endLine)
        (fun error => showErrorMessage ("Error: " ++ describe error))
  end.

End Command.

(** ** A host for the examples: the test suite's stubs

    Node's [path] module and [child_process] are outside the repository.
    [posix_relative] and [posix_dirname] follow Node's POSIX behaviour on
    absolute paths without a trailing slash; [stubExec] is the [execStub]
    of [git.test.ts], which answers a command with the first table entry
    whose key the command includes. *)

Fixpoint splitSlash (s cur : string) : list string :=
  match s with
  | EmptyString => [cur]
  | String c s' =>
      if Ascii.eqb c "/"%char then cur :: splitSlash s' ""
      else splitSlash s' (cur ++ String c "")
  end.

Fixpoint resolveSegments (segments stack : list string) : list string :=
  match segments with
  | [] => rev stack
  | seg :: rest =>
      if (seg =? "") || (seg =? ".") then resolveSegments rest stack
      else if seg =? ".." then resolveSegments rest (tl stack)
      else resolveSegments rest (seg :: stack)
  end.

Fixpoint dropCommon (a b : list string) : list string * list string :=
  match a, b with
  | x :: a', y :: b' => if x =? y then dropCommon a' b' else (a, b)
  | _, _ => (a, b)
  end.

Definition posix_relative (from to : string) : string :=
  let (up, down) := dropCommon (resolveSegments (splitSlash from "") [])
                               (resolveSegments (splitSlash to "") []) in
  String.concat "/" (map (fun _ => "..") up ++ down).

Fixpoint dirnameAux (s : string) : option string :=
  match s with
  | EmptyString => None
  | String c s' =>
      match dirnameAux s' with
      | Some d => Some (String c d)
      | None => if Ascii.eqb c "/"%char then Some "" else None
      end
  end.

Definition posix_dirname (p : string) : string :=
  match dirnameAux p with
  | Some "" => "/"
  | Some d => d
  | None => "."
  end.

Definition stubExec (responses : list (string * ExecReply)) (command : string) : ExecReply :=
  match find (fun entry => includes command (fst entry)) responses with
  | Some (_, response) => response
  | None => MkExecReply (Some ("No stub response for command: " ++ command))
                        "" "Command not stubbed"
  end.

Record Stub : Type := MkStub {
  stub_responses : list (string * ExecReply);
  stub_editor : Completion (option TextEditor);
  stub_parse : string -> Completion Uri;
  stub_open : Completion (Promise bool)
}.

Definition stubHost (s : Stub) : Host := {|
  World := unit;
  cp_exec := fun command _ w => (stubExec (stub_responses s) command, w);
  path_dirname := posix_dirname;
  path_relative_str := posix_relative;
  window_activeTextEditor := fun _ => stub_editor s;
  Uri_parse := stub_parse s;
  env_openExternal := fun _ w => (stub_open s, w)
|}.

Definition ok (stdout : string) : ExecReply := MkExecReply None stdout "".
Definition failed (stderr : string) : ExecReply := MkExecReply (Some "Command failed") "" stderr.

Definition cursorAt (fsPath : string) (line : Z) : TextEditor :=
  MkTextEditor (Normal fsPath)
               (Normal (MkSelection (Normal line) (Normal line) (Normal true))).

Definition selecting (fsPath : string) (first last : Z) : TextEditor :=
  MkTextEditor (Normal fsPath)
               (Normal (MkSelection (Normal first) (Normal last) (Normal false))).

(** A repository on branch [ref] with origin [origin], opened in an editor
    whose [openExternal] succeeds. *)
Definition repoStub (root origin ref : string) (editor : Completion (option TextEditor)) : Stub :=
  MkStub [ ("rev-parse --show-toplevel", ok root);
           ("config --get remote.origin.url", ok origin);
           ("rev-parse --abbrev-ref HEAD", ok ref);
           ("rev-parse HEAD", ok "abcdef1234567890") ]
         editor
         (fun text => Normal (MkUri text))
         (Normal (Fulfilled true)).

(** A repository without commits: the commit query fails, and the
    symbolic-ref query answers [symbolic]. *)
Definition emptyRepoStub (root origin : string) (symbolic : ExecReply) : Stub :=
  MkStub [ ("rev-parse --show-toplevel", ok root);
           ("config --get remote.origin.url", ok origin);
           ("rev-parse HEAD", failed "fatal: ambiguous argument 'HEAD': unknown revision");
           ("symbolic-ref --short HEAD", symbolic) ]
         (Normal None)
         (fun text => Normal (MkUri text))
         (Normal (Fulfilled true)).

(** The host of the builder tests: only [path] matters. *)
Definition builderHost : Host := stubHost (repoStub "/mock/path" "" "" (Normal None)).

(** The host of the resolver tests, with [origin] as the configured remote
    and [main] checked out. *)
Definition originHost (origin : string) : Host :=
  stubHost (repoStub "/mock/path" origin "main" (Normal None)).

(** An editor whose document raises when its path is read. *)
Definition brokenDocumentHost : Host :=
  stubHost (repoStub "/repo" "git@github.com:acme/widget.git" "feature"
                     (Normal (Some (MkTextEditor
                                      (Throw (ErrorObject "document is closed"))
                                      (Normal (MkSelection (Normal 9%Z) (Normal 9%Z)
                                                           (Normal true))))))).

(** A host whose [Uri.parse] rejects every text. *)
Definition strictUriHost : Host :=
  stubHost (MkStub (stub_responses (repoStub "/repo" "git@github.com:acme/widget.git"
                                             "feature" (Normal None)))
                   (Normal (Some (cursorAt "/repo/src/file.ts" 9)))
                   (fun _ => Throw (ErrorObject "[UriError]: Scheme contains illegal characters."))
                   (Normal (Fulfilled true))).

(** A file outside every repository: no git command is answered. *)
Definition notARepoHost : Host :=
  stubHost (MkStub [] (Normal (Some (cursorAt "/tmp/notes.txt" 0)))
                   (fun text => Normal (MkUri text))
                   (Normal (Fulfilled true))).

(** A repository whose checked-out ref cannot be read. *)
Definition brokenRefHost : Host :=
  stubHost (MkStub [ ("rev-parse --show-toplevel", ok "/mock/path");
                     ("config --get remote.origin.url", ok "git@github.com:o/r.git");
                     ("rev-parse --abbrev-ref HEAD", failed "fatal: bad object HEAD");
                     ("rev-parse HEAD", ok "abcdef1234567890") ]
                   (Normal (Some (cursorAt "/mock/path/a.ts" 0)))
                   (fun text => Normal (MkUri text))
                   (Normal (Fulfilled true))).

(** ** Notions used to state the properties *)

(** The non-empty prefixes of a string, shortest first. *)
Fixpoint nonemptyPrefixes (s : string) : list string :=
  match s with
  | EmptyString => []
  | String c s' => String c "" :: map (String c) (nonemptyPrefixes s')
  end.

(** [a] ends with a non-empty prefix of [x]: an occurrence of [x] could
    begin inside [a] and run past its end. *)
Definition overlapsEnd (a x : string) : bool :=
  existsb (endsWith a) (nonemptyPrefixes x).

(** An occurrence of [sub] in [t ++ x] that is not inside [t] ends in [x]:
    some non-empty prefix of [x] is a tail of [sub] or contains [sub]. *)
Definition straddles (sub x : string) : bool :=
  existsb (fun m => endsWith sub m || includes m sub) (nonemptyPrefixes x).

(** Every character of the string is white space for [trim]. *)
Fixpoint allWhiteSpace (s : string) : bool :=
  match s with
  | EmptyString => true
  | String c s' => isWhiteSpace c && allWhiteSpace s'
  end.

(** The messages shown to the user, in order. *)
Fixpoint shownErrors (evs : list Event) : list string :=
  match evs with
  | [] => []
  | ShowErrorMessage message :: rest => message :: shownErrors rest
  | _ :: rest => shownErrors rest
  end.

(** The text before the first occurrence of [c] (all of it when there is
    none), and the text after the first occurrence of [sub]. *)
Fixpoint takeUntil (c : ascii) (s : string) : string :=
  match s with
  | EmptyString => EmptyString
  | String x s' => if Ascii.eqb x c then EmptyString else String x (takeUntil c s')
  end.

Fixpoint afterFirst (sub s : string) : option string :=
  if String.prefix sub s then Some (sliceFrom (String.length sub) s)
  else match s with
       | EmptyString => None
       | String _ s' => afterFirst sub s'
       end.

(** The host a remote URL names, in the sense the specification uses the
    word: the authority of [scheme://[user@]host[:port]/path] without user
    and port, or the part between [user@] and [:] of the scp-like
    [[user@]host:path].  The code has no such notion; this definition only
    serves to state the specification's sentence about hosts. *)
Definition spec_hostOf (url : string) : string :=
  let withoutUser text :=
    match afterFirst "@" text with
    | Some h => h
    | None => text
    end in
  match afterFirst "://" url with
  | Some rest => takeUntil ":"%char (withoutUser (takeUntil "/"%char rest))
  | None => withoutUser (takeUntil ":"%char url)
  end.

(** The targets handed to [openExternal], in order. *)
Fixpoint openedTargets (evs : list Event) : list Uri :=
  match evs with
  | [] => []
  | OpenExternal target :: rest => target :: openedTargets rest
  | _ :: rest => openedTargets rest
  end.

(** * Properties *)

(** ** The built-ins on small inputs *)

Example trim_output : trim (String "009" "/mock/path " ++ String "010" "") = "/mock/path".
Proof. reflexivity. Qed.

Example ofNumber_decimal : ofNumber 42 = "42" /\ ofNumber 0 = "0" /\ ofNumber (-3) = "-3".
Proof. repeat split; reflexivity. Qed.

Example slice_examples :
  sliceFrom 4 "git@github.com" = "github.com" /\
  sliceDropLast 4 "repo.git" = "repo" /\
  sliceDropLast 4 "git" = "" /\
  replaceBackslashes "src\lib\file.ts" = "src/lib/file.ts".
Proof. repeat split; reflexivity. Qed.

Example posix_examples :
  posix_relative "/repo" "/repo/src/file.ts" = "src/file.ts" /\
  posix_relative "/repo/a" "/repo/b/file.ts" = "../b/file.ts" /\
  posix_dirname "/mock/path/to/file.ts" = "/mock/path/to".
Proof. repeat split; reflexivity. Qed.

Example executeCommand_failure :
  outcome (@executeCommand (stubHost (emptyRepoStub "/r" "" (ok "trunk")))
                           "git rev-parse HEAD" "/r" tt)
  = Throw (ErrorObject "Command failed: fatal: ambiguous argument 'HEAD': unknown revision").
Proof. reflexivity. Qed.

(** ** The test suite and the end-to-end scenarios of the specification *)

Example test_build_single :
  @buildGitHubUrl (stubHost (repoStub "/mock/path" "" "" (Normal None)))
    (MkRepoInfo "https://github.com/username/repo" "main" "/mock/path")
    (JsStr "/mock/path/src/file.ts") 42 None
  = Normal (Some "https://github.com/username/repo/blob/main/src/file.ts#L42").
Proof. reflexivity. Qed.

Example test_build_range :
  @buildGitHubUrl (stubHost (repoStub "/mock/path" "" "" (Normal None)))
    (MkRepoInfo "https://github.com/username/repo" "main" "/mock/path")
    (JsStr "/mock/path/src/file.ts") 42 (Some 50%Z)
  = Normal (Some "https://github.com/username/repo/blob/main/src/file.ts#L42-L50").
Proof. reflexivity. Qed.

Example test_build_null :
  @buildGitHubUrl (stubHost (repoStub "/mock/path" "" "" (Normal None)))
    (MkRepoInfo "https://github.com/username/repo" "main" "/mock/path")
    JsNull 42 None
  = Normal None.
Proof. reflexivity. Qed.

Example test_ssh_remote :
  outcome (@getRepoInfo (stubHost (repoStub "/mock/path" "git@github.com:username/repo.git"
                                            "main" (Normal None)))
                        "/mock/path/to/file.ts" tt)
  = Normal (Some (MkRepoInfo "https://github.com/username/repo" "main" "/mock/path")).
Proof. reflexivity. Qed.

Example test_detached_head :
  outcome (@getRepoInfo (stubHost (repoStub "/mock/path" "https://github.com/username/repo.git"
                                            "HEAD" (Normal None)))
                        "/mock/path/to/file.ts" tt)
  = Normal (Some (MkRepoInfo "https://github.com/username/repo" "abcdef1234567890" "/mock/path")).
Proof. reflexivity. Qed.

Example test_non_github_remote :
  let r := @getRepoInfo (stubHost (repoStub "/mock/path" "https://gitlab.com/username/repo.git"
                                            "main" (Normal None)))
                        "/mock/path/to/file.ts" tt in
  outcome r = Normal None /\
  events r = [ ConsoleError "Failed to get git repository information: No GitHub remote found, check remote configuration";
               ConsoleError "Git error details: No GitHub remote found" ].
Proof. split; reflexivity. Qed.

Example scenario_cursor :
  let r := @openInGithub (stubHost (repoStub "/repo" "git@github.com:acme/widget.git" "feature"
                                             (Normal (Some (cursorAt "/repo/src/file.ts" 9))))) tt in
  outcome r = Normal tt /\
  events r = [ OpenExternal (MkUri "https://github.com/acme/widget/blob/feature/src/file.ts#L10");
               ConsoleLog "Opening https://github.com/acme/widget/blob/feature/src/file.ts#L10" ].
Proof. split; reflexivity. Qed.

Example scenario_selection :
  let r := @openInGithub (stubHost (repoStub "/repo" "git@github.com:acme/widget.git" "feature"
                                             (Normal (Some (selecting "/repo/src/file.ts" 4 7))))) tt in
  outcome r = Normal tt /\
  events r = [ OpenExternal (MkUri "https://github.com/acme/widget/blob/feature/src/file.ts#L5-L8");
               ConsoleLog "Opening https://github.com/acme/widget/blob/feature/src/file.ts#L5-L8" ].
Proof. split; reflexivity. Qed.

Example scenario_no_editor :
  let r := @openInGithub (stubHost (repoStub "/repo" "git@github.com:acme/widget.git" "feature"
                                             (Normal None))) tt in
  outcome r = Normal tt /\ events r = [ ShowErrorMessage "No active editor found" ].
Proof. split; reflexivity. Qed.

(** The promise of [openExternal] is not awaited: its rejection raises
    nothing in the callback. *)
Example scenario_open_rejected :
  let h := stubHost (MkStub (stub_responses (repoStub "/repo" "git@github.com:acme/widget.git"
                                                      "feature" (Normal None)))
                            (Normal (Some (cursorAt "/repo/src/file.ts" 9)))
                            (fun text => Normal (MkUri text))
                            (Normal (Rejected (ErrorObject "no browser")))) in
  outcome (@openInGithub h tt) = Normal tt /\
  shownErrors (events (@openInGithub h tt)) = [].
Proof. split; reflexivity. Qed.

(** ** Facts about the string built-ins *)

Module JsStringFacts.

Lemma append_nil_r (s : string) : s ++ "" = s.
Proof. induction s as [|c s IH]; simpl; [reflexivity | now rewrite IH]. Qed.

Lemma append_assoc (a b c : string) : (a ++ b) ++ c = a ++ (b ++ c).
Proof. induction a as [|x a IH]; simpl; [reflexivity | now rewrite IH]. Qed.

Lemma length_append (a b : string) :
  String.length (a ++ b) = String.length a + String.length b.
Proof. induction a as [|x a IH]; simpl; [reflexivity | now rewrite IH]. Qed.

(** Two ways of cutting one string in two differ by a middle part. *)
Lemma append_eq_append (a b c d : string) :
  a ++ b = c ++ d ->
  (exists m, a = c ++ m /\ d = m ++ b) \/ (exists m, c = a ++ m /\ b = m ++ d).
Proof.
  revert c; induction a as [|x a IH]; intros c E; simpl in E.
  - right. exists c. split; [reflexivity | exact E].
  - destruct c as [|y c]; simpl in E.
    + left. exists (String x a). split; [reflexivity | now rewrite <- E].
    + injection E as -> E. destruct (IH _ E) as [[m [-> ->]] | [m [-> ->]]].
      * left. exists m. split; reflexivity.
      * right. exists m. split; reflexivity.
Qed.

Lemma startsWith_spec (s p : string) :
  startsWith s p = true <-> exists t, s = p ++ t.
Proof.
  unfold startsWith. revert s; induction p as [|x p IH]; intros s; simpl.
  - split; [intros _; exists s; reflexivity | now destruct s].
  - destruct s as [|y s].
    + split; [discriminate | intros [t E]; discriminate].
    + simpl. destruct (ascii_dec x y) as [->|N].
      * rewrite IH. split; intros [t E]; exists t; [now rewrite E | now injection E].
      * split; [discriminate | intros [t E]; congruence].
Qed.

Lemma endsWith_spec (s suf : string) :
  endsWith s suf = true <-> exists t, s = t ++ suf.
Proof.
  induction s as [|x s IH]; cbn [endsWith].
  - rewrite orb_false_r, String.eqb_eq. split.
    + intros <-. exists "". reflexivity.
    + intros [t E]. destruct t; [exact E | discriminate].
  - rewrite orb_true_iff, String.eqb_eq, IH. split.
    + intros [<- | [t ->]]; [exists "" | exists (String x t)]; reflexivity.
    + intros [t E]. destruct t as [|y t]; simpl in E.
      * left. exact E.
      * right. injection E as _ E. exists t. exact E.
Qed.

Lemma includes_spec (s sub : string) :
  includes s sub = true <-> exists a b, s = a ++ sub ++ b.
Proof.
  induction s as [|x s IH]; cbn [includes].
  - rewrite orb_false_r. fold (startsWith "" sub). rewrite startsWith_spec. split.
    + intros [t E]. exists "", t. exact E.
    + intros [a [b E]]. destruct a; [exists b; exact E | discriminate].
  - fold (startsWith (String x s) sub).
    rewrite orb_true_iff, startsWith_spec, IH. split.
    + intros [[t E] | [a [b ->]]]; [exists "", t; exact E | exists (String x a), b; reflexivity].
    + intros [a [b E]]. destruct a as [|y a]; simpl in E.
      * left. exists b. exact E.
      * right. injection E as _ E. exists a, b. exact E.
Qed.

Lemma sliceFrom_append (p t : string) : sliceFrom (String.length p) (p ++ t) = t.
Proof. induction p as [|x p IH]; simpl; [now destruct t | exact IH]. Qed.

Lemma substring_prefix (t suf : string) :
  String.substring 0 (String.length t) (t ++ suf) = t.
Proof. induction t as [|x t IH]; simpl; [now destruct suf | now rewrite IH]. Qed.

Lemma sliceDropLast_append (t suf : string) :
  sliceDropLast (String.length suf) (t ++ suf) = t.
Proof.
  unfold sliceDropLast. rewrite length_append.
  replace (String.length t + String.length suf - String.length suf) with (String.length t) by lia.
  apply substring_prefix.
Qed.

End JsStringFacts.

(** ** Facts about remote normalization *)

Module NormalizeFacts.
Import JsStringFacts.

Lemma startsWith_append (t x p : string) :
  startsWith t p = true -> startsWith (t ++ x) p = true.
Proof.
  rewrite !startsWith_spec. intros [r ->]. exists (r ++ x). apply append_assoc.
Qed.

Lemma endsWith_prepend (a b suf : string) :
  endsWith b suf = true -> endsWith (a ++ b) suf = true.
Proof.
  rewrite !endsWith_spec. intros [t ->]. exists (a ++ t). symmetry. apply append_assoc.
Qed.

Lemma in_nonemptyPrefixes (m b : string) :
  m <> "" -> In m (nonemptyPrefixes (m ++ b)).
Proof.
  induction m as [|c m IH]; intros N; [contradiction|].
  simpl. destruct m as [|d m].
  - left. reflexivity.
  - right. apply in_map. apply IH. discriminate.
Qed.

(** A tail [suf] of [a ++ b] lies inside [b], or begins inside [a]. *)
Lemma endsWith_append_cut (a b suf : string) :
  endsWith (a ++ b) suf = true ->
  endsWith b suf = true \/
  exists m, m <> "" /\ suf = m ++ b /\ endsWith a m = true.
Proof.
  rewrite endsWith_spec. intros [t E].
  destruct (append_eq_append _ _ _ _ E) as [[m [Ea Es]] | [m [Et Eb]]].
  - destruct m as [|c m].
    + left. apply endsWith_spec. exists "". simpl in Es. now rewrite Es.
    + right. exists (String c m). repeat split; [discriminate | exact Es |].
      apply endsWith_spec. exists t. exact Ea.
  - left. apply endsWith_spec. exists m. exact Eb.
Qed.

Lemma endsWith_append_inv (a b suf : string) :
  endsWith (a ++ b) suf = true ->
  endsWith b suf = true \/ overlapsEnd a suf = true.
Proof.
  intros H. destruct (endsWith_append_cut _ _ _ H) as [Hb | [m [N [Es Ha]]]].
  - left. exact Hb.
  - right. unfold overlapsEnd. apply existsb_exists. exists m. split; [|exact Ha].
    rewrite Es. now apply in_nonemptyPrefixes.
Qed.

Lemma startsWith_append_inv (t x p : string) :
  startsWith (t ++ x) p = true ->
  startsWith t p = true \/ overlapsEnd p x = true.
Proof.
  rewrite startsWith_spec. intros [r E].
  destruct (append_eq_append _ _ _ _ E) as [[m [Et Er]] | [m [Ep Ex]]].
  - left. apply startsWith_spec. exists m. exact Et.
  - destruct m as [|c m].
    + left. apply startsWith_spec. exists "". rewrite append_nil_r in Ep.
      now rewrite append_nil_r.
    + right. unfold overlapsEnd. apply existsb_exists. exists (String c m). split.
      * rewrite Ex. apply in_nonemptyPrefixes. discriminate.
      * apply endsWith_spec. exists t. exact Ep.
Qed.

Lemma includes_append_inv (t x sub : string) :
  includes (t ++ x) sub = true ->
  includes t sub = true \/ straddles sub x = true.
Proof.
  rewrite includes_spec. intros [a [b E]]. rewrite <- append_assoc in E.
  destruct (append_eq_append _ _ _ _ E) as [[m [Et Eb]] | [m [Ea Ex]]].
  - left. apply includes_spec. exists a, m. now rewrite <- append_assoc.
  - destruct m as [|c m].
    + left. apply includes_spec. exists a, "". rewrite append_nil_r in *. symmetry. exact Ea.
    + right. unfold straddles. apply existsb_exists. exists (String c m). split.
      * rewrite Ex. apply in_nonemptyPrefixes. discriminate.
      * apply orb_true_iff.
        destruct (append_eq_append _ _ _ _ Ea) as [[k [Ek Em]] | [k [Ek Es]]].
        -- right. apply includes_spec. exists k, "". now rewrite append_nil_r.
        -- left. apply endsWith_spec. exists k. exact Es.
Qed.

Lemma stripDotGit_append (t : string) : stripDotGit (t ++ ".git") = t.
Proof.
  unfold stripDotGit.
  replace (endsWith (t ++ ".git") ".git") with true
    by (symmetry; apply endsWith_spec; exists t; reflexivity).
  apply (sliceDropLast_append t ".git").
Qed.

Lemma stripDotGit_cases (x : string) :
  (exists t, x = t ++ ".git" /\ stripDotGit x = t) \/
  (endsWith x ".git" = false /\ stripDotGit x = x).
Proof.
  destruct (endsWith x ".git") eqn:E.
  - left. apply endsWith_spec in E. destruct E as [t ->]. exists t.
    split; [reflexivity | apply stripDotGit_append].
  - right. split; [reflexivity|]. unfold stripDotGit. now rewrite E.
Qed.

(** Removing one [.git] leaves a [.git] ending only under a doubled one. *)
Lemma stripDotGit_still_git (x : string) :
  endsWith (stripDotGit x) ".git" = true -> endsWith x ".git.git" = true.
Proof.
  destruct (stripDotGit_cases x) as [[t [-> ->]] | [E ->]].
  - rewrite !endsWith_spec. intros [t' ->]. exists t'. now rewrite append_assoc.
  - now rewrite E.
Qed.

(** A prefix that cannot overlap a [.git] ending stays in place. *)
Lemma stripDotGit_prepend (a p : string) :
  overlapsEnd a ".git" = false ->
  stripDotGit (a ++ p) = a ++ stripDotGit p.
Proof.
  intros O. destruct (stripDotGit_cases p) as [[t [-> ->]] | [E ->]].
  - rewrite <- append_assoc. apply stripDotGit_append.
  - unfold stripDotGit. destruct (endsWith (a ++ p) ".git") eqn:F; [|reflexivity].
    destruct (endsWith_append_inv _ _ _ F); congruence.
Qed.

(** The two ways [normalizeGitHubUrl] produces a result. *)
Lemma normalizeGitHubUrl_cases (u r : string) :
  normalizeGitHubUrl u = Some r ->
  (exists p, u = "git@github.com:" ++ p /\ r = "https://github.com/" ++ stripDotGit p) \/
  (startsWith u "git@github.com:" = false /\ includes u "github.com" = true /\
   r = stripDotGit u).
Proof.
  unfold normalizeGitHubUrl. destruct (startsWith u "git@github.com:") eqn:S.
  - apply startsWith_spec in S. destruct S as [p ->].
    cbv zeta. rewrite sliceFrom_append. intros E. left. exists p.
    split; [reflexivity | congruence].
  - destruct (includes u "github.com") eqn:I; [|discriminate].
    intros [= <-]. right. repeat split.
Qed.

Lemma normalizeGitHubUrl_includes (u r : string) :
  normalizeGitHubUrl u = Some r -> includes r "github.com" = true.
Proof.
  intros H. destruct (normalizeGitHubUrl_cases _ _ H) as [[p [-> ->]] | [S [I ->]]].
  - apply includes_spec. exists "https://", ("/" ++ stripDotGit p). reflexivity.
  - destruct (stripDotGit_cases u) as [[t [-> ->]] | [_ ->]]; [|exact I].
    destruct (includes_append_inv _ _ _ I) as [It | St]; [exact It | discriminate St].
Qed.

Lemma normalizeGitHubUrl_not_ssh (u r : string) :
  normalizeGitHubUrl u = Some r -> startsWith r "git@github.com:" = false.
Proof.
  intros H. destruct (normalizeGitHubUrl_cases _ _ H) as [[p [-> ->]] | [S [I ->]]].
  - reflexivity.
  - destruct (stripDotGit_cases u) as [[t [-> ->]] | [_ ->]]; [|exact S].
    destruct (startsWith t "git@github.com:") eqn:St; [|reflexivity].
    now rewrite (startsWith_append _ ".git" _ St) in S.
Qed.

(** Normalizing a result again removes one more trailing [.git]. *)
Lemma normalizeGitHubUrl_again (u r : string) :
  normalizeGitHubUrl u = Some r -> normalizeGitHubUrl r = Some (stripDotGit r).
Proof.
  intros H. unfold normalizeGitHubUrl at 1.
  now rewrite (normalizeGitHubUrl_not_ssh _ _ H), (normalizeGitHubUrl_includes _ _ H).
Qed.

Lemma normalizeGitHubUrl_absent (u : string) :
  includes u "github.com" = false -> normalizeGitHubUrl u = None.
Proof.
  intros I. unfold normalizeGitHubUrl. rewrite I.
  destruct (startsWith u "git@github.com:") eqn:S; [|reflexivity].
  apply startsWith_spec in S. destruct S as [t ->].
  assert (includes ("git@github.com:" ++ t) "github.com" = true) as I'
    by (apply includes_spec; exists "git@", (":" ++ t); reflexivity).
  congruence.
Qed.

Lemma normalizeGitHubUrl_https_prefix (u r : string) :
  normalizeGitHubUrl u = Some r ->
  startsWith u "git@github.com:" = true \/ startsWith u "https://github.com/" = true ->
  startsWith r "https://github.com/" = true.
Proof.
  intros H P. destruct (normalizeGitHubUrl_cases _ _ H) as [[p [-> ->]] | [S [I ->]]].
  - apply startsWith_spec. eexists. reflexivity.
  - destruct P as [P | P]; [congruence|].
    destruct (stripDotGit_cases u) as [[t [-> ->]] | [_ ->]]; [|exact P].
    destruct (startsWith_append_inv _ _ _ P) as [Pt | O]; [exact Pt | discriminate O].
Qed.

Lemma normalizeGitHubUrl_dot_git (u r : string) :
  normalizeGitHubUrl u = Some r ->
  endsWith r ".git" = true -> endsWith u ".git.git" = true.
Proof.
  intros H G. destruct (normalizeGitHubUrl_cases _ _ H) as [[p [-> ->]] | [S [I ->]]].
  - apply endsWith_prepend. apply stripDotGit_still_git.
    destruct (endsWith_append_inv _ _ _ G) as [Gp | O]; [exact Gp | discriminate O].
  - now apply stripDotGit_still_git.
Qed.

Lemma normalizeGitHubUrl_slash (u r : string) :
  normalizeGitHubUrl u = Some r ->
  endsWith r "/" = true ->
  endsWith (stripDotGit u) "/" = true \/ stripDotGit u = "git@github.com:".
Proof.
  intros H G. destruct (normalizeGitHubUrl_cases _ _ H) as [[p [-> ->]] | [S [I ->]]].
  - rewrite stripDotGit_prepend by reflexivity.
    destruct (endsWith_append_cut _ _ _ G) as [Gp | [m [N [Es _]]]].
    + left. now apply endsWith_prepend.
    + right. destruct m as [|c [|d m]]; [contradiction | | discriminate Es].
      injection Es as _ Es. now rewrite <- Es.
  - left. exact G.
Qed.

End NormalizeFacts.

(** ** Facts about the resolver *)

(** Case analysis along a run: on how a step ended, on a nullable value
    and on a test. *)
Ltac run_step :=
  cbn [outcome world events];
  match goal with
  | |- context [match outcome ?r with Normal _ => _ | Throw _ => _ end] =>
      let E := fresh "Out" in destruct (outcome r) eqn:E
  | |- context [match ?o with Some _ => _ | None => _ end] =>
      let E := fresh "Val" in destruct o eqn:E
  | |- context [if ?b then _ else _] =>
      let E := fresh "Test" in destruct b eqn:E
  end.

Ltac run_cases := repeat run_step; cbn [outcome world events].

Section ResolverFacts.
Context {host : Host}.

Lemma shownErrors_app (a b : list Event) :
  shownErrors (a ++ b) = (shownErrors a ++ shownErrors b)%list.
Proof.
  induction a as [|e a IH]; simpl; [reflexivity|].
  destruct e; simpl; now rewrite IH.
Qed.

Lemma executeCommand_events (command cwd : string) (w : World) :
  events (executeCommand command cwd w) = [].
Proof.
  unfold executeCommand. destruct (cp_exec command cwd w) as [reply w'].
  destruct (exec_error reply); reflexivity.
Qed.

Lemma getGitRootPath_events (filePath : string) (w : World) :
  events (getGitRootPath filePath w) = [].
Proof.
  unfold getGitRootPath, tryCatch, bind, ret. run_cases;
    rewrite ?executeCommand_events; reflexivity.
Qed.

Lemma getRemoteUrl_events (repoPath : string) (w : World) :
  events (getRemoteUrl repoPath w) = [].
Proof.
  unfold getRemoteUrl, tryCatch, bind, ret. run_cases;
    rewrite ?executeCommand_events; reflexivity.
Qed.

Lemma getCurrentBranch_events (repoPath : string) (w : World) :
  events (getCurrentBranch repoPath w) = [].
Proof.
  unfold getCurrentBranch, tryCatch, bind, ret. run_cases;
    rewrite ?executeCommand_events; reflexivity.
Qed.

(** C5.  Detached HEAD: when the commit query succeeds (the repository has
    commits), the abbreviated ref query then answers the literal [HEAD],
    and the commit-hash query then answers [hash], branch resolution
    returns [hash]; the result is the literal [HEAD] only if the
    commit-hash query itself printed it. *)
Theorem getCurrentBranch_detached_head (repoPath : string) (w : World) (commit hash : string) :
  let r1 := executeCommand "git rev-parse HEAD" repoPath w in
  let r2 := executeCommand "git rev-parse --abbrev-ref HEAD" repoPath (world r1) in
  let r3 := executeCommand "git rev-parse HEAD" repoPath (world r2) in
  outcome r1 = Normal commit ->
  outcome r2 = Normal "HEAD" ->
  outcome r3 = Normal hash ->
  outcome (getCurrentBranch repoPath w) = Normal (Some hash) /\
  (hash <> "HEAD" -> outcome (getCurrentBranch repoPath w) <> Normal (Some "HEAD")).
Proof.
  intros r1 r2 r3 H1 H2 H3.
  assert (outcome (getCurrentBranch repoPath w) = Normal (Some hash)) as R.
  { unfold getCurrentBranch, tryCatch, bind, ret. cbn [outcome world events].
    fold r1. rewrite H1. cbn [outcome world events].
    fold r2. rewrite H2. cbn [outcome world events String.eqb Ascii.eqb Bool.eqb].
    fold r3. rewrite H3. reflexivity. }
  split; [exact R | rewrite R; congruence].
Qed.

(** C6.  No commits yet: when the commit query fails, branch resolution
    returns what the symbolic-ref query answers, and the literal [main]
    when that query fails as well. *)
Theorem getCurrentBranch_no_commits (repoPath : string) (w : World) (error : Thrown) :
  let r1 := executeCommand "git rev-parse HEAD" repoPath w in
  let r2 := executeCommand "git symbolic-ref --short HEAD" repoPath (world r1) in
  outcome r1 = Throw error ->
  (forall name, outcome r2 = Normal name ->
                outcome (getCurrentBranch repoPath w) = Normal (Some name)) /\
  (forall error', outcome r2 = Throw error' ->
                  outcome (getCurrentBranch repoPath w) = Normal (Some "main")).
Proof.
  intros r1 r2 H1. split; intros x H2;
    unfold getCurrentBranch, tryCatch, bind, ret; cbn [outcome world events];
    fold r1; rewrite H1; cbn [outcome world events];
    fold r2; rewrite H2; reflexivity.
Qed.

Lemma truthyString_some (v : option string) (s : string) :
  truthyString v = Some s -> v = Some s.
Proof.
  destruct v as [x|]; simpl; [|discriminate].
  destruct (truthy x); [congruence | discriminate].
Qed.

(** What [getRemoteUrl] answers when the origin query answers [u]. *)
Lemma getRemoteUrl_reported (repoPath u : string) (w : World) :
  outcome (executeCommand "git config --get remote.origin.url" repoPath w) = Normal u ->
  outcome (getRemoteUrl repoPath w) = Normal (normalizeGitHubUrl u).
Proof.
  intros H. unfold getRemoteUrl, tryCatch, bind, ret. cbn [outcome world events].
  rewrite H. reflexivity.
Qed.

(** A remote URL in a result was normalized from what the origin query
    answered. *)
Lemma getRemoteUrl_inv (repoPath r : string) (w : World) :
  outcome (getRemoteUrl repoPath w) = Normal (Some r) ->
  exists u,
    outcome (executeCommand "git config --get remote.origin.url" repoPath w) = Normal u /\
    normalizeGitHubUrl u = Some r.
Proof.
  unfold getRemoteUrl, tryCatch, bind, ret. cbn [outcome world events].
  destruct (outcome (executeCommand _ repoPath w)) as [u|e] eqn:E; cbn [outcome world events].
  - intros [= N]. exists u. split; [reflexivity | exact N].
  - discriminate.
Qed.

(** A [try] whose [catch] clause ends normally ends normally. *)
Lemma tryCatch_returns {A : Type} (body : M A) (handler : Thrown -> M A) (w : World) :
  (forall error w', exists v, outcome (handler error w') = Normal v) ->
  exists v, outcome (tryCatch body handler w) = Normal v.
Proof.
  intros H. unfold tryCatch. destruct (outcome (body w)) as [a|error] eqn:E.
  - exists a. exact E.
  - cbn [outcome]. apply H.
Qed.

(** The resolver ends normally, and shows nothing to the user. *)
Lemma getRepoInfo_returns (filePath : string) (w : World) :
  exists v, outcome (getRepoInfo filePath w) = Normal v.
Proof.
  unfold getRepoInfo. apply tryCatch_returns. intros error w'.
  exists None. reflexivity.
Qed.

Lemma getRepoInfo_quiet (filePath : string) (w : World) :
  shownErrors (events (getRepoInfo filePath w)) = [].
Proof.
  unfold getRepoInfo, tryCatch, bind, ret, throw, console_error, emit. run_cases;
    rewrite ?getGitRootPath_events, ?getRemoteUrl_events, ?getCurrentBranch_events;
    reflexivity.
Qed.

(** Where the fields of a result come from. *)
Lemma getRepoInfo_inv (filePath : string) (w : World) (info : RepoInfo) :
  outcome (getRepoInfo filePath w) = Normal (Some info) ->
  let r0 := getGitRootPath filePath w in
  outcome r0 = Normal (Some (rootPath info)) /\
  outcome (getRemoteUrl (rootPath info) (world r0)) = Normal (Some (remoteUrl info)).
Proof.
  unfold getRepoInfo, tryCatch, bind, ret, throw, console_error, emit.
  cbn [outcome world events].
  destruct (outcome (getGitRootPath filePath w)) as [root|] eqn:E0;
    cbn [outcome world events]; [|discriminate].
  destruct (truthyString root) as [root'|] eqn:T0; cbn [outcome world events]; [|discriminate].
  apply truthyString_some in T0. subst root.
  destruct (outcome (getRemoteUrl root' _)) as [remote|] eqn:E1;
    cbn [outcome world events]; [|discriminate].
  destruct (truthyString remote) as [remote'|] eqn:T1; cbn [outcome world events]; [|discriminate].
  apply truthyString_some in T1. subst remote.
  destruct (outcome (getCurrentBranch root' _)) as [br|] eqn:E2;
    cbn [outcome world events]; [|discriminate].
  destruct (truthyString br) as [br'|] eqn:T2; cbn [outcome world events]; [|discriminate].
  intros [= <-]. simpl. split; [reflexivity | exact E1].
Qed.

(** C2 (amended).  For every origin remote URL that does not contain the
    text [github.com], remote normalization answers absent, and a resolver
    run in which the origin query reports that URL ends with an absent
    result instead of a [RepoInfo]. *)
Theorem getRepoInfo_rejects_remote_without_github (u : string) :
  includes u "github.com" = false ->
  normalizeGitHubUrl u = None /\
  forall (filePath root : string) (w : World),
    let r0 := getGitRootPath filePath w in
    outcome r0 = Normal (Some root) ->
    outcome (executeCommand "git config --get remote.origin.url" root (world r0)) = Normal u ->
    outcome (getRepoInfo filePath w) = Normal None.
Proof.
  intros I. pose proof (NormalizeFacts.normalizeGitHubUrl_absent u I) as N.
  split; [exact N|]. intros filePath root w r0 H0 H1.
  destruct (getRepoInfo_returns filePath w) as [[info|] R]; [|exact R].
  exfalso. destruct (getRepoInfo_inv _ _ _ R) as [E0 E1]. fold r0 in E0, E1.
  rewrite H0 in E0. injection E0 as E0. rewrite <- E0 in E1.
  rewrite (getRemoteUrl_reported _ _ _ H1), N in E1. discriminate.
Qed.

(** C4 (amended).  The [remoteUrl] of every [RepoInfo] the resolver
    returns is the normalization of the URL [u] the origin query reported:
    it contains [github.com]; it begins with [https://github.com/]
    whenever [u] begins with [git@github.com:] or [https://github.com/];
    it ends with [.git] only if [u] ends with [.git.git]; and it ends with
    a slash only if [u] without one trailing [.git] ends with a slash or
    is the bare [git@github.com:]. *)
Theorem getRepoInfo_remoteUrl_shape (filePath : string) (w : World) (info : RepoInfo) :
  outcome (getRepoInfo filePath w) = Normal (Some info) ->
  exists u,
    outcome (executeCommand "git config --get remote.origin.url" (rootPath info)
                            (world (getGitRootPath filePath w))) = Normal u /\
    normalizeGitHubUrl u = Some (remoteUrl info) /\
    includes (remoteUrl info) "github.com" = true /\
    (startsWith u "git@github.com:" = true \/ startsWith u "https://github.com/" = true ->
     startsWith (remoteUrl info) "https://github.com/" = true) /\
    (endsWith (remoteUrl info) ".git" = true -> endsWith u ".git.git" = true) /\
    (endsWith (remoteUrl info) "/" = true ->
     endsWith (stripDotGit u) "/" = true \/ stripDotGit u = "git@github.com:").
Proof.
  intros R. destruct (getRepoInfo_inv _ _ _ R) as [_ E1].
  destruct (getRemoteUrl_inv _ _ _ E1) as [u [Eu N]].
  exists u. repeat split.
  - exact Eu.
  - exact N.
  - exact (NormalizeFacts.normalizeGitHubUrl_includes _ _ N).
  - exact (NormalizeFacts.normalizeGitHubUrl_https_prefix _ _ N).
  - exact (NormalizeFacts.normalizeGitHubUrl_dot_git _ _ N).
  - exact (NormalizeFacts.normalizeGitHubUrl_slash _ _ N).
Qed.

End ResolverFacts.

(** ** The URL builder *)

Section BuilderFacts.
Context {host : Host}.

Lemma replaceBackslashes_get (s : string) (n : nat) :
  String.get n (replaceBackslashes s) =
  option_map (fun c => if Ascii.eqb c "\"%char then "/"%char else c) (String.get n s).
Proof.
  revert n; induction s as [|c s IH]; intros n; simpl; [reflexivity|].
  destruct n as [|n]; [reflexivity | apply IH].
Qed.

Lemma buildGitHubUrl_returns (repoInfo : RepoInfo) (filePath : JsValue)
      (startLineNumber : Z) (endLineNumber : option Z) :
  exists v, buildGitHubUrl repoInfo filePath startLineNumber endLineNumber = Normal v.
Proof.
  unfold buildGitHubUrl, tryCatchPure.
  destruct (path_relative _ filePath); [|eexists; reflexivity].
  destruct (truthyNumber _ && strictNotEqual _ _); eexists; reflexivity.
Qed.

(** C1.  For every [RepoInfo] and every file path string, with the end
    line, when one is supplied, a line number counted from 1, the builder
    returns [<remoteUrl>/blob/<branch>/<relativePath><anchor>], where
    [relativePath] is the path relative to [rootPath] with every
    backslash replaced by a forward slash and the other characters kept,
    and the anchor is [#L<start>-L<end>] when an end line is supplied and
    differs from the start line, and [#L<start>] otherwise. *)
Theorem buildGitHubUrl_format (repoInfo : RepoInfo) (filePath : string)
        (startLineNumber : Z) (endLineNumber : option Z) :
  (forall e, endLineNumber = Some e -> (1 <= e)%Z) ->
  let relativePath := replaceBackslashes (path_relative_str (rootPath repoInfo) filePath) in
  let anchor :=
    match endLineNumber with
    | Some e =>
        if (e =? startLineNumber)%Z then "#L" ++ ofNumber startLineNumber
        else "#L" ++ ofNumber startLineNumber ++ "-L" ++ ofNumber e
    | None => "#L" ++ ofNumber startLineNumber
    end in
  buildGitHubUrl repoInfo (JsStr filePath) startLineNumber endLineNumber
  = Normal (Some (remoteUrl repoInfo ++ "/blob/" ++ branch repoInfo ++ "/"
                  ++ relativePath ++ anchor)) /\
  forall n,
    String.get n relativePath =
    option_map (fun c => if Ascii.eqb c "\"%char then "/"%char else c)
               (String.get n (path_relative_str (rootPath repoInfo) filePath)).
Proof.
  intros OneBased relativePath anchor. split; [|intros n; apply replaceBackslashes_get].
  unfold buildGitHubUrl, path_relative, tryCatchPure, truthyNumber, strictNotEqual,
    ofOptionalNumber. subst anchor. fold relativePath.
  destruct endLineNumber as [e|]; [|reflexivity].
  specialize (OneBased e eq_refl).
  replace (e =? 0)%Z with false by (symmetry; apply Z.eqb_neq; lia).
  destruct (e =? startLineNumber)%Z; reflexivity.
Qed.

(** C7 (amended).  For every [RepoInfo], start line and end line, the
    builder returns an absent result exactly when the file path is not a
    string ([null], [undefined], a number); a string, also one that names
    no file under [rootPath], gets a URL.  For no file path at all does
    the builder end by raising. *)
Theorem buildGitHubUrl_invalid_path (repoInfo : RepoInfo) (filePath : JsValue)
        (startLineNumber : Z) (endLineNumber : option Z) :
  (buildGitHubUrl repoInfo filePath startLineNumber endLineNumber = Normal None <->
   forall s, filePath <> JsStr s) /\
  forall anyPath error,
    buildGitHubUrl repoInfo anyPath startLineNumber endLineNumber <> Throw error.
Proof.
  split; [split|].
  - intros Absent s ->. revert Absent.
    unfold buildGitHubUrl, path_relative, tryCatchPure.
    destruct (truthyNumber _ && strictNotEqual _ _); discriminate.
  - intros Invalid. unfold buildGitHubUrl, path_relative, tryCatchPure.
    destruct filePath as [| | n | s]; try reflexivity. now destruct (Invalid s).
  - intros anyPath error E.
    destruct (buildGitHubUrl_returns repoInfo anyPath startLineNumber endLineNumber) as [v R].
    congruence.
Qed.

(** C10.  For every [RepoInfo], file path and start line, an end line of 0
    gives what omitting the end line gives, and for a file path string
    that is the URL with the single-point anchor [#L<start>], whether or
    not the start line is 0. *)
Theorem buildGitHubUrl_end_line_zero (repoInfo : RepoInfo) (filePath : JsValue)
        (path : string) (startLineNumber : Z) :
  buildGitHubUrl repoInfo filePath startLineNumber (Some 0%Z)
  = buildGitHubUrl repoInfo filePath startLineNumber None /\
  buildGitHubUrl repoInfo (JsStr path) startLineNumber (Some 0%Z)
  = Normal (Some (remoteUrl repoInfo ++ "/blob/" ++ branch repoInfo ++ "/"
                  ++ replaceBackslashes (path_relative_str (rootPath repoInfo) path)
                  ++ "#L" ++ ofNumber startLineNumber)).
Proof.
  split; reflexivity.
Qed.

End BuilderFacts.

(** ** The command callback *)

Section CommandFacts.
Context {host : Host}.

Lemma bind_run {A B : Type} (m : M A) (k : A -> M B) (w : World) (a : A) :
  outcome (m w) = Normal a ->
  bind m k w = MkRun (outcome (k a (world (m w)))) (world (k a (world (m w))))
                     (events (m w) ++ events (k a (world (m w)))).
Proof. intros H. unfold bind. now rewrite H. Qed.

(** The guarded block shows at most one message, and none when it ends by
    raising. *)
Lemma openInGithub_guarded_shown (filePath : string) (sel : Selection)
      (startLine endLine : Z) (w : World) :
  let body := openInGithub_guarded filePath sel startLine endLine w in
  (List.length (shownErrors (events body)) <= 1)%nat /\
  (forall error, outcome body = Throw error -> shownErrors (events body) = []).
Proof.
  cbv zeta. unfold openInGithub_guarded.
  destruct (getRepoInfo_returns filePath w) as [v R]. rewrite (bind_run _ _ _ _ R).
  pose proof (getRepoInfo_quiet filePath w) as Q.
  cbn [outcome world events]. rewrite shownErrors_app, Q. cbn [app].
  generalize (world (getRepoInfo filePath w)). intros w1.
  destruct v as [info|].
  - unfold bind, eval, ret, showErrorMessage, console_log, emit, openExternal.
    cbn [outcome world events].
    destruct (isEmpty sel) as [empty|e0]; cbn [outcome world events];
      [|split; [simpl; lia | reflexivity]].
    match goal with
    | |- context [match (if ?c then ?x else ?y) with _ => _ end] =>
        destruct (if c then x else y) as [url|e1] eqn:B
    end; cbn [outcome world events]; [|split; [simpl; lia | reflexivity]].
    destruct (truthyString url) as [url'|]; cbn [outcome world events];
      [|split; [simpl; lia | discriminate]].
    destruct (Uri_parse url') as [target|e2]; cbn [outcome world events];
      [|split; [simpl; lia | reflexivity]].
    destruct (env_openExternal target w1) as [[p|e3] w']; cbn [outcome world events];
      split; simpl; try lia; try reflexivity; discriminate.
  - unfold bind, ret, showErrorMessage, console_error, emit. cbn [outcome world events].
    split; [simpl; lia | discriminate].
Qed.

(** C8 (amended).  Once an editor is active and its file path, selection
    and line numbers have been read, the callback ends normally whatever
    is raised in the guarded block (resolving the repository, reading
    whether the selection is empty, building the URL, parsing it and
    calling [openExternal]): it shows at most one message, and when the
    block raises [error] it shows exactly the one message
    [Error: <description of error>], after everything the block did. *)
Theorem openInGithub_catches_guarded_block (w : World) (editor : TextEditor)
        (filePath : string) (sel : Selection) (line0 line1 : Z) :
  window_activeTextEditor w = Normal (Some editor) ->
  document_uri_fsPath editor = Normal filePath ->
  selection editor = Normal sel ->
  start_line sel = Normal line0 ->
  end_line sel = Normal line1 ->
  let body := openInGithub_guarded filePath sel (line0 + 1) (line1 + 1) w in
  let r := openInGithub w in
  outcome r = Normal tt /\
  (List.length (shownErrors (events r)) <= 1)%nat /\
  (forall error,
      outcome body = Throw error ->
      events r = (events body ++ [ShowErrorMessage ("Error: " ++ describe error)])%list /\
      shownErrors (events r) = ["Error: " ++ describe error]).
Proof.
  intros Ed Fp Se L0 L1 body r.
  destruct (openInGithub_guarded_shown filePath sel (line0 + 1) (line1 + 1) w) as [Le Qt].
  fold body in Le, Qt.
  assert (r = tryCatch (openInGithub_guarded filePath sel (line0 + 1) (line1 + 1))
                       (fun error => showErrorMessage ("Error: " ++ describe error)) w) as Er.
  { subst r. unfold openInGithub, bind, eval. cbn [outcome world events].
    rewrite Ed. cbn [outcome world events]. rewrite Fp. cbn [outcome world events].
    rewrite Se. cbn [outcome world events]. rewrite L0. cbn [outcome world events].
    rewrite L1. cbn [outcome world events].
    cbn [app]. now destruct (tryCatch _ _ w). }
  rewrite Er. unfold tryCatch, showErrorMessage, emit. fold body.
  destruct (outcome body) as [[]|e] eqn:B; cbn [outcome world events].
  - split; [exact B|]. split; [exact Le | discriminate].
  - rewrite shownErrors_app, (Qt e eq_refl). split; [reflexivity|].
    split; [simpl; lia|]. intros error [= <-]. split; reflexivity.
Qed.

End CommandFacts.

(** ** Remote normalization: the claims *)

(** C3.  The SSH remote [git@github.com:owner/repo.git] and the HTTPS
    remote [https://github.com/owner/repo.git] both normalize to exactly
    [https://github.com/owner/repo], and the remote
    [https://gitlab.com/owner/repo.git] normalizes to absent. *)
Theorem normalizeGitHubUrl_examples :
  normalizeGitHubUrl "git@github.com:owner/repo.git" = Some "https://github.com/owner/repo" /\
  normalizeGitHubUrl "https://github.com/owner/repo.git" = Some "https://github.com/owner/repo" /\
  normalizeGitHubUrl "https://gitlab.com/owner/repo.git" = None.
Proof. repeat split; reflexivity. Qed.

(** C9 (as stated) fails: a doubled [.git] ending is removed once per
    normalization, so the first result is not a fixed point. *)
Lemma normalizeGitHubUrl_not_idempotent :
  ~ (forall u r, normalizeGitHubUrl u = Some r -> normalizeGitHubUrl r = Some r).
Proof.
  intros H.
  specialize (H "https://github.com/owner/repo.git.git" "https://github.com/owner/repo.git"
                eq_refl).
  discriminate H.
Qed.

(** C9 (amended).  When normalizing [u] yields [r], normalizing [r] yields
    [r] with one more trailing [.git] removed; it yields [r] itself
    whenever [r] does not end with [.git], in particular whenever [u] does
    not end with [.git.git]. *)
Theorem normalizeGitHubUrl_again_strips_once (u r : string) :
  normalizeGitHubUrl u = Some r ->
  normalizeGitHubUrl r = Some (stripDotGit r) /\
  (endsWith r ".git" = false -> normalizeGitHubUrl r = Some r) /\
  (endsWith u ".git.git" = false -> normalizeGitHubUrl r = Some r).
Proof.
  intros H. pose proof (NormalizeFacts.normalizeGitHubUrl_again _ _ H) as A.
  assert (endsWith r ".git" = false -> normalizeGitHubUrl r = Some r) as F.
  { intros E. rewrite A. unfold stripDotGit. now rewrite E. }
  repeat split; [exact A | exact F |].
  intros E. apply F. destruct (endsWith r ".git") eqn:G; [|reflexivity].
  rewrite (NormalizeFacts.normalizeGitHubUrl_dot_git _ _ H G) in E. discriminate.
Qed.

Lemma normalizeGitHubUrl_again_strips_once_witness :
  normalizeGitHubUrl "git@github.com:owner/repo.git" = Some "https://github.com/owner/repo" /\
  normalizeGitHubUrl "https://github.com/owner/repo" = Some "https://github.com/owner/repo".
Proof.
  split; [reflexivity|].
  apply (normalizeGitHubUrl_again_strips_once "git@github.com:owner/repo.git"
           "https://github.com/owner/repo" eq_refl).
  reflexivity.
Defined.

(** ** The resolver: counterexamples and instances *)

(** C2 (as stated) fails: the host of this remote is [gitlab.com], yet the
    URL contains the text [github.com], so normalization keeps it and the
    resolver produces a [RepoInfo]. *)
Lemma other_host_accepted :
  let u := "https://gitlab.com/github.com/repo.git" in
  spec_hostOf u = "gitlab.com" /\
  spec_hostOf "git@github.com:owner/repo.git" = "github.com" /\
  normalizeGitHubUrl u = Some "https://gitlab.com/github.com/repo" /\
  outcome (@getRepoInfo (originHost u) "/mock/path/to/file.ts" tt)
  = Normal (Some (MkRepoInfo "https://gitlab.com/github.com/repo" "main" "/mock/path")).
Proof. repeat split; reflexivity. Qed.

Lemma getRepoInfo_rejects_remote_without_github_witness :
  let u := "https://gitlab.com/username/repo.git" in
  includes u "github.com" = false /\
  normalizeGitHubUrl u = None /\
  outcome (@getRepoInfo (originHost u) "/mock/path/to/file.ts" tt) = Normal None.
Proof.
  cbv zeta. split; [reflexivity|].
  destruct (@getRepoInfo_rejects_remote_without_github
              (originHost "https://gitlab.com/username/repo.git")
              "https://gitlab.com/username/repo.git" eq_refl) as [N R].
  split; [exact N|].
  apply (R "/mock/path/to/file.ts" "/mock/path" tt); reflexivity.
Defined.

(** C4 (as stated) fails in each of its three parts: an [ssh://] remote
    keeps its scheme, a trailing slash is kept, and of a doubled [.git]
    ending one [.git] remains. *)
Lemma remoteUrl_not_canonical :
  (let r := @getRepoInfo (originHost "ssh://git@github.com/owner/repo.git")
                         "/mock/path/to/file.ts" tt in
   outcome r = Normal (Some (MkRepoInfo "ssh://git@github.com/owner/repo" "main" "/mock/path")) /\
   startsWith "ssh://git@github.com/owner/repo" "https://github.com/" = false) /\
  (let r := @getRepoInfo (originHost "https://github.com/owner/repo/")
                         "/mock/path/to/file.ts" tt in
   outcome r = Normal (Some (MkRepoInfo "https://github.com/owner/repo/" "main" "/mock/path")) /\
   endsWith "https://github.com/owner/repo/" "/" = true) /\
  (let r := @getRepoInfo (originHost "https://github.com/owner/repo.git.git")
                         "/mock/path/to/file.ts" tt in
   outcome r = Normal (Some (MkRepoInfo "https://github.com/owner/repo.git" "main" "/mock/path")) /\
   endsWith "https://github.com/owner/repo.git" ".git" = true).
Proof. repeat split; reflexivity. Qed.

Lemma getRepoInfo_remoteUrl_shape_witness :
  let h := originHost "git@github.com:username/repo.git" in
  let info := MkRepoInfo "https://github.com/username/repo" "main" "/mock/path" in
  outcome (@getRepoInfo h "/mock/path/to/file.ts" tt) = Normal (Some info) /\
  exists u,
    normalizeGitHubUrl u = Some (remoteUrl info) /\
    includes (remoteUrl info) "github.com" = true.
Proof.
  cbv zeta. split; [reflexivity|].
  destruct (@getRepoInfo_remoteUrl_shape
              (originHost "git@github.com:username/repo.git") "/mock/path/to/file.ts" tt
              (MkRepoInfo "https://github.com/username/repo" "main" "/mock/path") eq_refl)
    as [u [_ [N [I _]]]].
  exists u. split; [exact N | exact I].
Defined.

Lemma getCurrentBranch_detached_head_witness :
  let h := stubHost (repoStub "/mock/path" "https://github.com/username/repo.git" "HEAD"
                              (Normal None)) in
  outcome (@executeCommand h "git rev-parse HEAD" "/mock/path" tt) = Normal "abcdef1234567890" /\
  outcome (@executeCommand h "git rev-parse --abbrev-ref HEAD" "/mock/path" tt) = Normal "HEAD" /\
  outcome (@getCurrentBranch h "/mock/path" tt) = Normal (Some "abcdef1234567890").
Proof.
  cbv zeta. split; [reflexivity|]. split; [reflexivity|].
  apply (@getCurrentBranch_detached_head
           (stubHost (repoStub "/mock/path" "https://github.com/username/repo.git" "HEAD"
                               (Normal None)))
           "/mock/path" tt "abcdef1234567890" "abcdef1234567890"); reflexivity.
Defined.

Lemma getCurrentBranch_no_commits_witness :
  let named := stubHost (emptyRepoStub "/mock/path" "git@github.com:o/r.git" (ok "trunk")) in
  let unnamed := stubHost (emptyRepoStub "/mock/path" "git@github.com:o/r.git"
                                         (failed "fatal: ref HEAD is not a symbolic ref")) in
  (exists error, outcome (@executeCommand named "git rev-parse HEAD" "/mock/path" tt)
                 = Throw error) /\
  outcome (@getCurrentBranch named "/mock/path" tt) = Normal (Some "trunk") /\
  outcome (@getCurrentBranch unnamed "/mock/path" tt) = Normal (Some "main").
Proof.
  cbv zeta. split; [eexists; reflexivity|]. split.
  - eapply (proj1 (@getCurrentBranch_no_commits
                     (stubHost (emptyRepoStub "/mock/path" "git@github.com:o/r.git" (ok "trunk")))
                     "/mock/path" tt _ eq_refl)).
    reflexivity.
  - eapply (proj2 (@getCurrentBranch_no_commits
                     (stubHost (emptyRepoStub "/mock/path" "git@github.com:o/r.git"
                                              (failed "fatal: ref HEAD is not a symbolic ref")))
                     "/mock/path" tt _ eq_refl)).
    reflexivity.
Defined.

(** ** The URL builder: counterexample and instances *)

(** The end line 0 of C10 at work: it differs from the start line 5, yet
    the anchor is the single-point [#L5]. *)
Lemma zero_end_line_keeps_single_anchor :
  let info := MkRepoInfo "https://github.com/username/repo" "main" "/mock/path" in
  let url := @buildGitHubUrl builderHost info (JsStr "/mock/path/src/file.ts") 5 (Some 0%Z) in
  (0 <> 5)%Z /\
  url = Normal (Some "https://github.com/username/repo/blob/main/src/file.ts#L5") /\
  url <> Normal (Some "https://github.com/username/repo/blob/main/src/file.ts#L5-L0").
Proof. cbv zeta. repeat split; [discriminate | discriminate]. Qed.

Lemma buildGitHubUrl_format_witness :
  (forall e, Some 50%Z = Some e -> (1 <= e)%Z) /\
  @buildGitHubUrl builderHost
    (MkRepoInfo "https://github.com/username/repo" "main" "/mock/path")
    (JsStr "/mock/path/src/file.ts") 42 (Some 50%Z)
  = Normal (Some "https://github.com/username/repo/blob/main/src/file.ts#L42-L50").
Proof.
  assert (forall e, Some 50%Z = Some e -> (1 <= e)%Z) as OneBased
    by (intros e [= <-]; lia).
  split; [exact OneBased|].
  exact (proj1 (@buildGitHubUrl_format builderHost
                  (MkRepoInfo "https://github.com/username/repo" "main" "/mock/path")
                  "/mock/path/src/file.ts" 42 (Some 50%Z) OneBased)).
Defined.

(** C7 (as stated) fails: a file path outside the repository root is a
    string, so the path computation does not raise and the builder
    returns a URL that climbs out of the root instead of an absent
    result. *)
Lemma outside_tree_path_gets_url :
  @buildGitHubUrl builderHost
    (MkRepoInfo "https://github.com/username/repo" "main" "/repo/a")
    (JsStr "/repo/b/file.ts") 7 (Some 9%Z)
  = Normal (Some "https://github.com/username/repo/blob/main/../b/file.ts#L7-L9").
Proof. reflexivity. Qed.

Lemma buildGitHubUrl_invalid_path_witness :
  (forall s, JsNull <> JsStr s) /\
  @buildGitHubUrl builderHost
    (MkRepoInfo "https://github.com/username/repo" "main" "/mock/path") JsNull 42 None
  = Normal None.
Proof.
  split; [discriminate|].
  apply (proj1 (@buildGitHubUrl_invalid_path builderHost
                  (MkRepoInfo "https://github.com/username/repo" "main" "/mock/path")
                  JsNull 42 None)).
  discriminate.
Defined.

(** ** The command callback: counterexample and instance *)

(** C8 (as stated) fails: the editor state is read before the [try]
    block, so an exception raised there escapes the callback and no
    message is shown. *)
Lemma openInGithub_escapes_when_reading_editor :
  let r := @openInGithub brokenDocumentHost tt in
  outcome r = Throw (ErrorObject "document is closed") /\ events r = [].
Proof. split; reflexivity. Qed.

Lemma openInGithub_catches_guarded_block_witness :
  let r := @openInGithub strictUriHost tt in
  outcome (@openInGithub_guarded strictUriHost "/repo/src/file.ts"
             (MkSelection (Normal 9%Z) (Normal 9%Z) (Normal true)) 10 10 tt)
  = Throw (ErrorObject "[UriError]: Scheme contains illegal characters.") /\
  outcome r = Normal tt /\
  shownErrors (events r) = ["Error: [UriError]: Scheme contains illegal characters."].
Proof.
  cbv zeta. split; [reflexivity|].
  destruct (@openInGithub_catches_guarded_block strictUriHost tt
              (cursorAt "/repo/src/file.ts" 9) "/repo/src/file.ts"
              (MkSelection (Normal 9%Z) (Normal 9%Z) (Normal true)) 9 9
              eq_refl eq_refl eq_refl eq_refl eq_refl) as [O [_ S]].
  split; [exact O|].
  exact (proj2 (S (ErrorObject "[UriError]: Scheme contains illegal characters.") eq_refl)).
Defined.

(** * Further properties of the code *)

(** ** Remote normalization *)

(** X1.  Normalization answers absent exactly for the remote URLs that do
    not contain the text [github.com]. *)
Theorem normalizeGitHubUrl_absent_iff (u : string) :
  normalizeGitHubUrl u = None <-> includes u "github.com" = false.
Proof.
  split; [|apply NormalizeFacts.normalizeGitHubUrl_absent].
  unfold normalizeGitHubUrl.
  destruct (startsWith u "git@github.com:"); [discriminate|].
  destruct (includes u "github.com"); [discriminate | reflexivity].
Qed.

(** X2.  The SSH form and the HTTPS form of one repository path normalize
    to the same URL, with one trailing [.git] of the path removed. *)
Theorem normalizeGitHubUrl_ssh_https_agree (p : string) :
  normalizeGitHubUrl ("git@github.com:" ++ p) = Some ("https://github.com/" ++ stripDotGit p) /\
  normalizeGitHubUrl ("https://github.com/" ++ p) = Some ("https://github.com/" ++ stripDotGit p).
Proof.
  split.
  - unfold normalizeGitHubUrl.
    replace (startsWith ("git@github.com:" ++ p) "git@github.com:") with true
      by (symmetry; apply JsStringFacts.startsWith_spec; exists p; reflexivity).
    cbv zeta. now rewrite JsStringFacts.sliceFrom_append.
  - unfold normalizeGitHubUrl.
    replace (startsWith ("https://github.com/" ++ p) "git@github.com:") with false
      by reflexivity.
    replace (includes ("https://github.com/" ++ p) "github.com") with true
      by (symmetry; apply JsStringFacts.includes_spec; exists "https://", ("/" ++ p);
          reflexivity).
    now rewrite NormalizeFacts.stripDotGit_prepend by reflexivity.
Qed.

(** X3.  Appending [.git] to a URL that contains [github.com] and is not
    in SSH form, and normalizing, gives the URL back. *)
Theorem normalizeGitHubUrl_clone_url (t : string) :
  includes t "github.com" = true ->
  startsWith t "git@github.com:" = false ->
  normalizeGitHubUrl (t ++ ".git") = Some t.
Proof.
  intros I S. unfold normalizeGitHubUrl.
  destruct (startsWith (t ++ ".git") "git@github.com:") eqn:S'.
  - destruct (NormalizeFacts.startsWith_append_inv _ _ _ S') as [St | O];
      [congruence | discriminate O].
  - replace (includes (t ++ ".git") "github.com") with true.
    + now rewrite NormalizeFacts.stripDotGit_append.
    + symmetry. apply JsStringFacts.includes_spec in I. destruct I as [a [b ->]].
      apply JsStringFacts.includes_spec. exists a, (b ++ ".git").
      now rewrite !JsStringFacts.append_assoc.
Qed.

Lemma normalizeGitHubUrl_clone_url_witness :
  includes "https://github.com/owner/repo" "github.com" = true /\
  startsWith "https://github.com/owner/repo" "git@github.com:" = false /\
  normalizeGitHubUrl ("https://github.com/owner/repo" ++ ".git")
  = Some "https://github.com/owner/repo".
Proof.
  split; [reflexivity|]. split; [reflexivity|].
  apply (normalizeGitHubUrl_clone_url "https://github.com/owner/repo"); reflexivity.
Defined.

(** ** Running git *)

Module TrimFacts.

Lemma trimStart_first (x : string) (c : ascii) :
  String.get 0 (trimStart x) = Some c -> isWhiteSpace c = false.
Proof.
  induction x as [|a x IH]; simpl; [discriminate|].
  destruct (isWhiteSpace a) eqn:W; [exact IH|].
  simpl. intros [= <-]. exact W.
Qed.

(** [trimEnd] keeps the first character of what it leaves. *)
Lemma trimEnd_first (x : string) (c : ascii) :
  String.get 0 (trimEnd x) = Some c -> String.get 0 x = Some c.
Proof.
  destruct x as [|a x]; simpl; [discriminate|].
  destruct (trimEnd x); [destruct (isWhiteSpace a); [discriminate|] |]; simpl; congruence.
Qed.

Lemma trimEnd_last (x : string) (c : ascii) :
  String.get (String.length (trimEnd x) - 1) (trimEnd x) = Some c -> isWhiteSpace c = false.
Proof.
  induction x as [|a x IH]; simpl; [discriminate|].
  destruct (trimEnd x) as [|b r] eqn:T.
  - destruct (isWhiteSpace a) eqn:W; simpl; [discriminate|]. intros [= <-]. exact W.
  - simpl String.length. simpl in IH. rewrite Nat.sub_0_r in *.
    simpl. exact IH.
Qed.

(** What [trimStart] and [trimEnd] remove is white space only. *)
Lemma trimStart_split (x : string) :
  exists lead, x = lead ++ trimStart x /\ allWhiteSpace lead = true.
Proof.
  induction x as [|a x [lead [E W]]]; simpl.
  - exists "". split; reflexivity.
  - destruct (isWhiteSpace a) eqn:Wa.
    + exists (String a lead). simpl. rewrite Wa, W. split; [now rewrite <- E | reflexivity].
    + exists "". split; reflexivity.
Qed.

Lemma trimEnd_split (x : string) :
  exists trail, x = trimEnd x ++ trail /\ allWhiteSpace trail = true.
Proof.
  induction x as [|a x [trail [E W]]]; simpl.
  - exists "". split; reflexivity.
  - destruct (trimEnd x) as [|b r] eqn:T.
    + simpl in E. subst x. destruct (isWhiteSpace a) eqn:Wa.
      * exists (String a trail). simpl. rewrite Wa, W. split; reflexivity.
      * exists trail. split; [reflexivity | exact W].
    + exists trail. split; [simpl; f_equal; exact E | exact W].
Qed.

End TrimFacts.

Section ExecuteFacts.
Context {host : Host}.

(** X4.  [executeCommand] resolves exactly when [exec] reports no error,
    and then to [stdout] without the white space at its two ends: [stdout]
    is the resolved text between two runs of white space, and the text
    itself neither begins nor ends with white space.  Otherwise it rejects
    with an [Error] whose message is [Command failed: ] followed by the
    trimmed [stderr], or by the error's own message when that is empty.
    It does nothing but run the command. *)
Theorem executeCommand_result (command cwd : string) (w : World) :
  let r := executeCommand command cwd w in
  let reply := fst (cp_exec command cwd w) in
  match outcome r with
  | Normal text =>
      exec_error reply = None /\
      (exists lead trail,
          exec_stdout reply = lead ++ text ++ trail /\
          allWhiteSpace lead = true /\ allWhiteSpace trail = true) /\
      (forall c, String.get 0 text = Some c -> isWhiteSpace c = false) /\
      (forall c, String.get (String.length text - 1) text = Some c -> isWhiteSpace c = false)
  | Throw error =>
      exists message,
        exec_error reply = Some message /\
        error = ErrorObject ("Command failed: "
                             ++ (if truthy (trim (exec_stderr reply))
                                 then trim (exec_stderr reply) else message))
  end /\
  world r = snd (cp_exec command cwd w) /\
  events r = [].
Proof.
  cbv zeta. unfold executeCommand.
  destruct (cp_exec command cwd w) as [reply w']. cbn [fst snd].
  destruct (exec_error reply) as [message|]; cbn [outcome world events].
  - split; [|split; reflexivity]. exists message. split; reflexivity.
  - split; [|split; reflexivity]. split; [reflexivity|]. split; [|split; intros c G].
    + destruct (TrimFacts.trimStart_split (exec_stdout reply)) as [lead [El Wl]].
      destruct (TrimFacts.trimEnd_split (trimStart (exec_stdout reply))) as [trail [Et Wt]].
      exists lead, trail. unfold trim. rewrite <- Et. repeat split; assumption.
    + apply (TrimFacts.trimStart_first (exec_stdout reply)).
      now apply TrimFacts.trimEnd_first.
    + now apply (TrimFacts.trimEnd_last (trimStart (exec_stdout reply))).
Qed.

End ExecuteFacts.

(** ** Branch resolution *)

Section BranchFacts.
Context {host : Host}.

(** X5.  On a named branch (the commit query succeeds and the abbreviated
    ref query answers a name other than [HEAD]) branch resolution returns
    that name and runs no further command. *)
Theorem getCurrentBranch_named_branch (repoPath : string) (w : World) (commit name : string) :
  let r1 := executeCommand "git rev-parse HEAD" repoPath w in
  let r2 := executeCommand "git rev-parse --abbrev-ref HEAD" repoPath (world r1) in
  outcome r1 = Normal commit ->
  outcome r2 = Normal name ->
  name <> "HEAD" ->
  outcome (getCurrentBranch repoPath w) = Normal (Some name) /\
  world (getCurrentBranch repoPath w) = world r2.
Proof.
  intros r1 r2 H1 H2 N. apply String.eqb_neq in N.
  unfold getCurrentBranch, tryCatch, bind, ret. cbn [outcome world events].
  fold r1. rewrite H1. cbn [outcome world events].
  fold r2. rewrite H2. cbn [outcome world events]. rewrite N.
  split; reflexivity.
Qed.

(** X6.  Branch resolution never raises, and it answers absent exactly
    when the repository has commits and either the abbreviated ref query
    fails or it answers [HEAD] and the commit-hash query then fails. *)
Theorem getCurrentBranch_absent_iff (repoPath : string) (w : World) :
  let r1 := executeCommand "git rev-parse HEAD" repoPath w in
  let r2 := executeCommand "git rev-parse --abbrev-ref HEAD" repoPath (world r1) in
  let r3 := executeCommand "git rev-parse HEAD" repoPath (world r2) in
  (exists v, outcome (getCurrentBranch repoPath w) = Normal v) /\
  (outcome (getCurrentBranch repoPath w) = Normal None <->
   (exists commit, outcome r1 = Normal commit) /\
   ((exists error, outcome r2 = Throw error) \/
    (outcome r2 = Normal "HEAD" /\ exists error, outcome r3 = Throw error))).
Proof.
  intros r1 r2 r3. split.
  { unfold getCurrentBranch. apply tryCatch_returns. intros e w'. exists None. reflexivity. }
  unfold getCurrentBranch, tryCatch, bind, ret. cbn [outcome world events].
  fold r1. destruct (outcome r1) as [commit|e1] eqn:H1; cbn [outcome world events].
  - fold r2. destruct (outcome r2) as [name|e2] eqn:H2; cbn [outcome world events].
    + destruct (name =? "HEAD") eqn:N; cbn [outcome world events].
      * apply String.eqb_eq in N. subst name. fold r3.
        destruct (outcome r3) as [hash|e3] eqn:H3; cbn [outcome world events].
        -- split; [discriminate|]. intros [_ [[e E] | [_ [e E]]]]; discriminate.
        -- split; [|reflexivity]. intros _. split; [eexists; reflexivity|].
           right. split; [reflexivity | eexists; reflexivity].
      * apply String.eqb_neq in N.
        split; [discriminate|]. intros [_ [[e E] | [E _]]]; [discriminate | congruence].
    + split; [|reflexivity]. intros _. split; [eexists; reflexivity|].
      left. eexists. reflexivity.
  - match goal with
    | |- context [outcome (executeCommand ?c repoPath (world r1))] =>
        destruct (outcome (executeCommand c repoPath (world r1))) eqn:H2
    end; cbn [outcome world events];
      (split; [discriminate | intros [[c E] _]; discriminate]).
Qed.

End BranchFacts.

Lemma getCurrentBranch_named_branch_witness :
  let h := originHost "git@github.com:username/repo.git" in
  outcome (@executeCommand h "git rev-parse HEAD" "/mock/path" tt) = Normal "abcdef1234567890" /\
  outcome (@executeCommand h "git rev-parse --abbrev-ref HEAD" "/mock/path" tt) = Normal "main" /\
  "main" <> "HEAD" /\
  outcome (@getCurrentBranch h "/mock/path" tt) = Normal (Some "main").
Proof.
  cbv zeta. split; [reflexivity|]. split; [reflexivity|]. split; [discriminate|].
  apply (@getCurrentBranch_named_branch (originHost "git@github.com:username/repo.git")
           "/mock/path" tt "abcdef1234567890" "main");
    [reflexivity | reflexivity | discriminate].
Defined.

(** ** The resolver as a whole *)

Section RepoInfoFacts.
Context {host : Host}.

(** The three sub-steps turn every failure into an absent value. *)
Lemma getGitRootPath_returns (filePath : string) (w : World) :
  exists v, outcome (getGitRootPath filePath w) = Normal v.
Proof.
  unfold getGitRootPath. apply tryCatch_returns. intros e w'. exists None. reflexivity.
Qed.

Lemma getRemoteUrl_returns (repoPath : string) (w : World) :
  exists v, outcome (getRemoteUrl repoPath w) = Normal v.
Proof.
  unfold getRemoteUrl. apply tryCatch_returns. intros e w'. exists None. reflexivity.
Qed.

Lemma getCurrentBranch_returns (repoPath : string) (w : World) :
  exists v, outcome (getCurrentBranch repoPath w) = Normal v.
Proof.
  unfold getCurrentBranch. apply tryCatch_returns. intros e w'. exists None. reflexivity.
Qed.

Lemma truthyString_truthy (x : string) : truthy x = true -> truthyString (Some x) = Some x.
Proof. intros T. simpl. now rewrite T. Qed.

Lemma truthyString_some_truthy (v : option string) (x : string) :
  truthyString v = Some x -> truthy x = true.
Proof.
  destruct v as [y|]; simpl; [|discriminate].
  destruct (truthy y) eqn:T; [|discriminate]. now intros [= <-].
Qed.

(** X7.  The resolver returns a [RepoInfo] exactly when root discovery,
    remote resolution run in that root, and branch resolution run
    after it, each deliver a value, root and branch being non-empty; the
    three fields are those values, and none of them is empty. *)
Theorem getRepoInfo_some_iff (filePath : string) (w : World) (info : RepoInfo) :
  let r0 := getGitRootPath filePath w in
  let r1 := getRemoteUrl (rootPath info) (world r0) in
  let r2 := getCurrentBranch (rootPath info) (world r1) in
  (outcome (getRepoInfo filePath w) = Normal (Some info) <->
   outcome r0 = Normal (Some (rootPath info)) /\
   outcome r1 = Normal (Some (remoteUrl info)) /\
   outcome r2 = Normal (Some (branch info)) /\
   truthy (rootPath info) = true /\
   truthy (branch info) = true) /\
  (outcome (getRepoInfo filePath w) = Normal (Some info) ->
   truthy (remoteUrl info) = true).
Proof.
  intros r0 r1 r2.
  assert (forall remote, outcome r1 = Normal (Some remote) -> truthy remote = true) as Tr.
  { intros remote E. destruct (getRemoteUrl_inv _ _ _ E) as [u [_ N]].
    apply NormalizeFacts.normalizeGitHubUrl_includes in N.
    destruct remote; [discriminate N | reflexivity]. }
  assert (outcome (getRepoInfo filePath w) = Normal (Some info) ->
          outcome r0 = Normal (Some (rootPath info)) /\
          outcome r1 = Normal (Some (remoteUrl info)) /\
          outcome r2 = Normal (Some (branch info)) /\
          truthy (rootPath info) = true /\
          truthy (branch info) = true) as Fwd.
  { subst r2 r1 r0.
    unfold getRepoInfo, tryCatch, bind, ret, throw, console_error, emit.
    cbn [outcome world events].
    destruct (outcome (getGitRootPath filePath w)) as [root|] eqn:E0;
      cbn [outcome world events]; [|discriminate].
    destruct (truthyString root) as [root'|] eqn:T0; cbn [outcome world events]; [|discriminate].
    pose proof (truthyString_some_truthy _ _ T0) as T0'.
    apply truthyString_some in T0. subst root.
    destruct (outcome (getRemoteUrl root' _)) as [remote|] eqn:E1;
      cbn [outcome world events]; [|discriminate].
    destruct (truthyString remote) as [remote'|] eqn:T1;
      cbn [outcome world events]; [|discriminate].
    apply truthyString_some in T1. subst remote.
    destruct (outcome (getCurrentBranch root' _)) as [br|] eqn:E2;
      cbn [outcome world events]; [|discriminate].
    destruct (truthyString br) as [br'|] eqn:T2; cbn [outcome world events]; [|discriminate].
    pose proof (truthyString_some_truthy _ _ T2) as T2'.
    apply truthyString_some in T2. subst br.
    intros [= <-]. cbn [rootPath remoteUrl branch]. repeat split; assumption. }
  split; [split; [exact Fwd|] | intros R; apply Tr; apply (Fwd R)].
  intros [E0 [E1 [E2 [T0 T2]]]]. pose proof (Tr _ E1) as T1. subst r2 r1 r0.
  unfold getRepoInfo, tryCatch, bind, ret, throw, console_error, emit.
  cbn [outcome world events].
  rewrite E0. cbn [outcome world events]. rewrite (truthyString_truthy _ T0).
  cbn [outcome world events]. rewrite E1. cbn [outcome world events].
  rewrite (truthyString_truthy _ T1). cbn [outcome world events].
  rewrite E2. cbn [outcome world events]. rewrite (truthyString_truthy _ T2).
  cbn [outcome world events]. now destruct info.
Qed.

(** How a run of the resolver ends, and what it has logged by then. *)
Lemma getRepoInfo_run_cases (filePath : string) (w : World) :
  let r := getRepoInfo filePath w in
  (exists info, outcome r = Normal (Some info) /\ events r = []) \/
  (outcome r = Normal None /\
   In (events r)
      [ [ ConsoleError "Failed to get git repository information: Not a git repository";
          ConsoleError "Git error details: Not a git repository" ];
        [ ConsoleError "Failed to get git repository information: No GitHub remote found, check remote configuration";
          ConsoleError "Git error details: No GitHub remote found" ];
        [ ConsoleError "Failed to get git repository information: Could not determine current branch or commit";
          ConsoleError "Git error details: Could not determine current branch or commit" ] ]).
Proof.
  cbv zeta.
  unfold getRepoInfo, tryCatch, bind, ret, throw, console_error, emit.
  cbn [outcome world events].
  destruct (getGitRootPath_returns filePath w) as [root E0].
  rewrite E0. cbn [outcome world events]. rewrite getGitRootPath_events.
  destruct (truthyString root) as [root'|]; cbn [outcome world events];
    [|right; split; [reflexivity | left; reflexivity]].
  set (w0 := world (getGitRootPath filePath w)).
  destruct (getRemoteUrl_returns root' w0) as [remote E1].
  rewrite E1. cbn [outcome world events]. rewrite getRemoteUrl_events.
  destruct (truthyString remote) as [remote'|]; cbn [outcome world events];
    [|right; split; [reflexivity | right; left; reflexivity]].
  set (w1 := world (getRemoteUrl root' w0)).
  destruct (getCurrentBranch_returns root' w1) as [br E2].
  rewrite E2. cbn [outcome world events]. rewrite getCurrentBranch_events.
  destruct (truthyString br) as [br'|]; cbn [outcome world events].
  - left. eexists. split; reflexivity.
  - right. split; [reflexivity | right; right; left; reflexivity].
Qed.

(** X8.  The resolver never raises.  When it returns a [RepoInfo] it has
    logged nothing; when it returns absent it has logged exactly two
    console errors, naming one of its three failures; it never shows a
    message or opens anything itself. *)
Theorem getRepoInfo_diagnostics (filePath : string) (w : World) :
  let r := getRepoInfo filePath w in
  ((exists info, outcome r = Normal (Some info) /\ events r = []) \/
   (outcome r = Normal None /\
    In (events r)
       [ [ ConsoleError "Failed to get git repository information: Not a git repository";
           ConsoleError "Git error details: Not a git repository" ];
         [ ConsoleError "Failed to get git repository information: No GitHub remote found, check remote configuration";
           ConsoleError "Git error details: No GitHub remote found" ];
         [ ConsoleError "Failed to get git repository information: Could not determine current branch or commit";
           ConsoleError "Git error details: Could not determine current branch or commit" ] ])) /\
  shownErrors (events r) = [] /\
  openedTargets (events r) = [].
Proof.
  cbv zeta. pose proof (getRepoInfo_run_cases filePath w) as C. cbv zeta in C.
  split; [exact C|].
  destruct C as [[info [_ E]] | [_ I]].
  - rewrite E. split; reflexivity.
  - simpl in I. destruct I as [E | [E | [E | []]]]; rewrite <- E; split; reflexivity.
Qed.

(** X9.  The resolver stops at the first step that fails: outside a
    repository it runs nothing after root discovery, and without a GitHub
    remote it runs nothing after remote resolution; each time it logs the
    matching pair of console errors. *)
Theorem getRepoInfo_stops_at_first_failure (filePath : string) (w : World)
        (root : option string) :
  let r0 := getGitRootPath filePath w in
  let r := getRepoInfo filePath w in
  outcome r0 = Normal root ->
  (truthyString root = None ->
   outcome r = Normal None /\ world r = world r0 /\
   events r = [ ConsoleError "Failed to get git repository information: Not a git repository";
                ConsoleError "Git error details: Not a git repository" ]) /\
  (forall root' remote,
      truthyString root = Some root' ->
      outcome (getRemoteUrl root' (world r0)) = Normal remote ->
      truthyString remote = None ->
      outcome r = Normal None /\ world r = world (getRemoteUrl root' (world r0)) /\
      events r = [ ConsoleError "Failed to get git repository information: No GitHub remote found, check remote configuration";
                   ConsoleError "Git error details: No GitHub remote found" ]).
Proof.
  intros r0 r E0. subst r r0. split.
  - intros T.
    unfold getRepoInfo, tryCatch, bind, ret, throw, console_error, emit.
    cbn [outcome world events]. rewrite E0. cbn [outcome world events]. rewrite T.
    cbn [outcome world events]. rewrite getGitRootPath_events. repeat split.
  - intros root' remote T E1 T1.
    unfold getRepoInfo, tryCatch, bind, ret, throw, console_error, emit.
    cbn [outcome world events]. rewrite E0. cbn [outcome world events]. rewrite T.
    cbn [outcome world events]. rewrite E1. cbn [outcome world events]. rewrite T1.
    cbn [outcome world events]. rewrite getGitRootPath_events, getRemoteUrl_events.
    repeat split.
Qed.

End RepoInfoFacts.

Lemma getRepoInfo_stops_at_first_failure_witness :
  outcome (@getGitRootPath notARepoHost "/tmp/notes.txt" tt) = Normal None /\
  truthyString (@None string) = None /\
  outcome (@getRepoInfo notARepoHost "/tmp/notes.txt" tt) = Normal None /\
  events (@getRepoInfo notARepoHost "/tmp/notes.txt" tt)
  = [ ConsoleError "Failed to get git repository information: Not a git repository";
      ConsoleError "Git error details: Not a git repository" ].
Proof.
  split; [reflexivity|]. split; [reflexivity|].
  destruct (proj1 (@getRepoInfo_stops_at_first_failure notARepoHost "/tmp/notes.txt" tt None
                     eq_refl) eq_refl) as [O [_ E]].
  split; [exact O | exact E].
Defined.

(** ** The command callback, path by path *)

Section HandlerFacts.
Context {host : Host}.

Lemma openedTargets_app (a b : list Event) :
  openedTargets (a ++ b) = (openedTargets a ++ openedTargets b)%list.
Proof.
  induction a as [|e a IH]; simpl; [reflexivity|].
  destruct e; simpl; now rewrite IH.
Qed.

(** For a file path that is a string the builder delivers a non-empty
    URL. *)
Lemma buildGitHubUrl_string (repoInfo : RepoInfo) (path : string)
      (startLineNumber : Z) (endLineNumber : option Z) :
  exists url,
    buildGitHubUrl repoInfo (JsStr path) startLineNumber endLineNumber = Normal (Some url) /\
    truthyString (Some url) = Some url.
Proof.
  unfold buildGitHubUrl, path_relative, tryCatchPure.
  destruct (truthyNumber _ && strictNotEqual _ _); eexists; (split; [reflexivity|]);
    destruct (remoteUrl repoInfo); reflexivity.
Qed.

(** Once the editor state has been read the callback is its [try]
    statement. *)
Lemma openInGithub_after_reads (w : World) (editor : TextEditor)
      (filePath : string) (sel : Selection) (line0 line1 : Z) :
  window_activeTextEditor w = Normal (Some editor) ->
  document_uri_fsPath editor = Normal filePath ->
  selection editor = Normal sel ->
  start_line sel = Normal line0 ->
  end_line sel = Normal line1 ->
  openInGithub w
  = tryCatch (openInGithub_guarded filePath sel (line0 + 1) (line1 + 1))
             (fun error => showErrorMessage ("Error: " ++ describe error)) w.
Proof.
  intros Ed Fp Se L0 L1. unfold openInGithub, bind, eval. cbn [outcome world events].
  rewrite Ed. cbn [outcome world events]. rewrite Fp. cbn [outcome world events].
  rewrite Se. cbn [outcome world events]. rewrite L0. cbn [outcome world events].
  rewrite L1. cbn [outcome world events app]. now destruct (tryCatch _ _ w).
Qed.

(** The ways the guarded block can run. *)
Lemma openInGithub_guarded_cases (filePath : string) (sel : Selection)
      (startLine endLine : Z) (w : World) :
  let g := getRepoInfo filePath w in
  let body := openInGithub_guarded filePath sel startLine endLine w in
  (outcome g = Normal None /\ outcome body = Normal tt /\ world body = world g /\
   events body
   = (events g ++
      [ ShowErrorMessage "Could not determine GitHub repository information";
        ConsoleError "Failed to get GitHub repository information. Check the logs for more details." ])%list) \/
  (exists info, outcome g = Normal (Some info) /\
     ((exists error, outcome body = Throw error /\ events body = [] /\ world body = world g) \/
      (exists target,
          (exists error, outcome body = Throw error /\ events body = [OpenExternal target]) \/
          (exists url, outcome body = Normal tt /\
                       events body = [OpenExternal target; ConsoleLog ("Opening " ++ url)])))).
Proof.
  cbv zeta. unfold openInGithub_guarded.
  pose proof (getRepoInfo_run_cases filePath w) as C. cbv zeta in C.
  destruct C as [[info [R E]] | [R _]]; rewrite (bind_run _ _ _ _ R); cbn [outcome world events].
  - right. exists info. split; [exact R|]. rewrite E. cbn [app].
    generalize (world (getRepoInfo filePath w)). intros w1.
    unfold bind, eval, ret, showErrorMessage, console_log, emit, openExternal.
    cbn [outcome world events].
    destruct (isEmpty sel) as [empty|e0]; cbn [outcome world events];
      [|left; eexists; repeat split].
    match goal with
    | |- context [match (if ?c then ?x else ?y) with _ => _ end] =>
        assert (exists url, (if c then x else y) = Normal (Some url) /\
                            truthyString (Some url) = Some url) as [url [B T]]
          by (destruct c; apply buildGitHubUrl_string)
    end.
    rewrite B. cbn [outcome world events]. rewrite T. cbn [outcome world events].
    destruct (Uri_parse url) as [target|e2]; cbn [outcome world events];
      [|left; eexists; repeat split].
    right. exists target.
    destruct (env_openExternal target w1) as [[p|e3] w']; cbn [outcome world events].
    + right. exists url. split; reflexivity.
    + left. eexists. split; reflexivity.
  - left. unfold bind, ret, showErrorMessage, console_error, emit.
    cbn [outcome world events]. split; [exact R|]. repeat split.
Qed.

Lemma getRepoInfo_opens_nothing (filePath : string) (w : World) :
  openedTargets (events (getRepoInfo filePath w)) = [].
Proof.
  pose proof (getRepoInfo_run_cases filePath w) as C. cbv zeta in C.
  destruct C as [[info [_ E]] | [_ I]]; [now rewrite E|].
  simpl in I. destruct I as [E | [E | [E | []]]]; now rewrite <- E.
Qed.

(** The ways the callback can run: a read of the editor state raises,
    there is no editor, or the [try] statement is reached. *)
Lemma openInGithub_cases (w : World) :
  let r := openInGithub w in
  (exists error,
      outcome r = Throw error /\ events r = [] /\ world r = w /\
      (window_activeTextEditor w = Throw error \/
       exists editor,
         window_activeTextEditor w = Normal (Some editor) /\
         (document_uri_fsPath editor = Throw error \/
          selection editor = Throw error \/
          exists sel, selection editor = Normal sel /\
                      (start_line sel = Throw error \/ end_line sel = Throw error)))) \/
  (window_activeTextEditor w = Normal None /\
   outcome r = Normal tt /\ world r = w /\
   events r = [ShowErrorMessage "No active editor found"]) \/
  (exists editor filePath sel line0 line1,
      window_activeTextEditor w = Normal (Some editor) /\
      document_uri_fsPath editor = Normal filePath /\
      r = tryCatch (openInGithub_guarded filePath sel (line0 + 1) (line1 + 1))
                   (fun error => showErrorMessage ("Error: " ++ describe error)) w).
Proof.
  cbv zeta.
  destruct (window_activeTextEditor w) as [[editor|]|e] eqn:Ed.
  - destruct (document_uri_fsPath editor) as [filePath|e] eqn:Fp.
    + destruct (selection editor) as [sel|e] eqn:Se.
      * destruct (start_line sel) as [line0|e] eqn:L0.
        -- destruct (end_line sel) as [line1|e] eqn:L1.
           ++ right. right. exists editor, filePath, sel, line0, line1.
              split; [reflexivity|]. split; [exact Fp|].
              apply (openInGithub_after_reads w editor); assumption.
           ++ left. exists e. unfold openInGithub, bind, eval. cbn [outcome world events].
              rewrite Ed. cbn [outcome world events]. rewrite Fp. cbn [outcome world events].
              rewrite Se. cbn [outcome world events]. rewrite L0. cbn [outcome world events].
              rewrite L1. cbn [outcome world events]. repeat split. right. exists editor.
              split; [reflexivity|]. right. right. exists sel. split; [exact Se | now right].
        -- left. exists e. unfold openInGithub, bind, eval. cbn [outcome world events].
           rewrite Ed. cbn [outcome world events]. rewrite Fp. cbn [outcome world events].
           rewrite Se. cbn [outcome world events]. rewrite L0. cbn [outcome world events].
           repeat split. right. exists editor.
           split; [reflexivity|]. right. right. exists sel. split; [exact Se | now left].
      * left. exists e. unfold openInGithub, bind, eval. cbn [outcome world events].
        rewrite Ed. cbn [outcome world events]. rewrite Fp. cbn [outcome world events].
        rewrite Se. cbn [outcome world events]. repeat split. right. exists editor.
        split; [reflexivity|]. right. left. exact Se.
    + left. exists e. unfold openInGithub, bind, eval. cbn [outcome world events].
      rewrite Ed. cbn [outcome world events]. rewrite Fp. cbn [outcome world events].
      repeat split. right. exists editor. split; [reflexivity|]. left. exact Fp.
  - right. left. unfold openInGithub, bind, ret, showErrorMessage, emit.
    cbn [outcome world events]. rewrite Ed. cbn [outcome world events]. repeat split.
  - left. exists e. unfold openInGithub, bind. cbn [outcome world events].
    rewrite Ed. cbn [outcome world events]. repeat split. now left.
Qed.

(** X10.  Without an active editor the callback shows the one message
    [No active editor found], runs no command and opens nothing. *)
Theorem openInGithub_no_editor (w : World) :
  window_activeTextEditor w = Normal None ->
  let r := openInGithub w in
  outcome r = Normal tt /\ world r = w /\
  events r = [ShowErrorMessage "No active editor found"].
Proof.
  intros Ed. cbv zeta. unfold openInGithub, bind, ret, showErrorMessage, emit.
  cbn [outcome world events]. rewrite Ed. cbn [outcome world events]. repeat split.
Qed.

(** X11.  When the editor state is read, the repository resolves to
    [info], and parsing and opening the URL succeed, the callback opens
    exactly one target, the parse of
    [<remoteUrl>/blob/<branch>/<relativePath><anchor>], and logs it; the
    anchor counts lines from 1: [#L<first+1>-L<last+1>] for a non-empty
    selection over several lines, [#L<first+1>] otherwise. *)
Theorem openInGithub_opens_url (w w' : World) (editor : TextEditor) (filePath : string)
        (sel : Selection) (line0 line1 : Z) (empty : bool) (info : RepoInfo)
        (target : Uri) (opened : Promise bool) :
  window_activeTextEditor w = Normal (Some editor) ->
  document_uri_fsPath editor = Normal filePath ->
  selection editor = Normal sel ->
  start_line sel = Normal line0 ->
  end_line sel = Normal line1 ->
  isEmpty sel = Normal empty ->
  (0 <= line1)%Z ->
  outcome (getRepoInfo filePath w) = Normal (Some info) ->
  let url :=
    remoteUrl info ++ "/blob/" ++ branch info ++ "/"
    ++ replaceBackslashes (path_relative_str (rootPath info) filePath)
    ++ (if negb empty && negb (line0 =? line1)%Z
        then "#L" ++ ofNumber (line0 + 1) ++ "-L" ++ ofNumber (line1 + 1)
        else "#L" ++ ofNumber (line0 + 1)) in
  Uri_parse url = Normal target ->
  env_openExternal target (world (getRepoInfo filePath w)) = (Normal opened, w') ->
  let r := openInGithub w in
  outcome r = Normal tt /\ world r = w' /\
  events r = [OpenExternal target; ConsoleLog ("Opening " ++ url)].
Proof.
  intros Ed Fp Se L0 L1 Em Pos R url Pa Op r. subst r.
  rewrite (openInGithub_after_reads w editor filePath sel line0 line1 Ed Fp Se L0 L1).
  assert (events (getRepoInfo filePath w) = []) as Ev.
  { pose proof (getRepoInfo_run_cases filePath w) as C. cbv zeta in C.
    destruct C as [[i [_ E]] | [N _]]; [exact E | congruence]. }
  assert ((if negb empty && negb (line0 + 1 =? line1 + 1)%Z
           then buildGitHubUrl info (JsStr filePath) (line0 + 1) (Some (line1 + 1)%Z)
           else buildGitHubUrl info (JsStr filePath) (line0 + 1) None)
          = Normal (Some url)) as B.
  { replace (line0 + 1 =? line1 + 1)%Z with (line0 =? line1)%Z
      by (destruct (Z.eqb_spec line0 line1), (Z.eqb_spec (line0 + 1) (line1 + 1));
          (reflexivity || lia)).
    subst url.
    unfold buildGitHubUrl, path_relative, tryCatchPure, truthyNumber, strictNotEqual,
      ofOptionalNumber.
    destruct empty; cbn [negb andb]; [reflexivity|].
    destruct (line0 =? line1)%Z eqn:Q; cbn [negb]; [reflexivity|].
    apply Z.eqb_neq in Q.
    replace (line1 + 1 =? 0)%Z with false by (symmetry; apply Z.eqb_neq; lia).
    replace (line1 + 1 =? line0 + 1)%Z with false by (symmetry; apply Z.eqb_neq; lia).
    reflexivity. }
  assert (truthyString (Some url) = Some url) as T.
  { subst url. simpl. destruct (remoteUrl info); reflexivity. }
  unfold tryCatch, openInGithub_guarded.
  rewrite (bind_run _ _ _ _ R). cbn [outcome world events]. rewrite Ev. cbn [app].
  unfold bind, eval, ret, showErrorMessage, console_log, emit, openExternal.
  cbn [outcome world events]. rewrite Em. cbn [outcome world events].
  rewrite B. cbn [outcome world events]. rewrite T. cbn [outcome world events].
  rewrite Pa. cbn [outcome world events]. rewrite Op. cbn [outcome world events].
  repeat split.
Qed.

(** X12.  When the editor state is read and the resolver answers absent,
    the callback ends normally having shown the one message
    [Could not determine GitHub repository information] and logged one
    more console error after the resolver's; it builds and opens
    nothing. *)
Theorem openInGithub_resolver_failure (w : World) (editor : TextEditor) (filePath : string)
        (sel : Selection) (line0 line1 : Z) :
  window_activeTextEditor w = Normal (Some editor) ->
  document_uri_fsPath editor = Normal filePath ->
  selection editor = Normal sel ->
  start_line sel = Normal line0 ->
  end_line sel = Normal line1 ->
  outcome (getRepoInfo filePath w) = Normal None ->
  let r := openInGithub w in
  outcome r = Normal tt /\
  world r = world (getRepoInfo filePath w) /\
  events r
  = (events (getRepoInfo filePath w) ++
     [ ShowErrorMessage "Could not determine GitHub repository information";
       ConsoleError "Failed to get GitHub repository information. Check the logs for more details." ])%list /\
  shownErrors (events r) = ["Could not determine GitHub repository information"] /\
  openedTargets (events r) = [].
Proof.
  intros Ed Fp Se L0 L1 R r. subst r.
  rewrite (openInGithub_after_reads w editor filePath sel line0 line1 Ed Fp Se L0 L1).
  unfold tryCatch.
  destruct (openInGithub_guarded_cases filePath sel (line0 + 1) (line1 + 1) w)
    as [[_ [O [W E]]] | [info [R' _]]]; [|congruence].
  rewrite O. split; [exact O|]. split; [exact W|]. split; [exact E|].
  rewrite E, shownErrors_app, openedTargets_app, getRepoInfo_quiet, getRepoInfo_opens_nothing.
  split; reflexivity.
Qed.

(** X13.  In every execution the callback shows at most one message, and
    it is [No active editor found], [Could not determine GitHub repository
    information] or [Error: <description>]; [Failed to build GitHub URL]
    is never shown, since the file path handed to the builder is a
    string. *)
Theorem openInGithub_messages (w : World) :
  let shown := shownErrors (events (openInGithub w)) in
  (shown = [] \/
   shown = ["No active editor found"] \/
   shown = ["Could not determine GitHub repository information"] \/
   exists error, shown = ["Error: " ++ describe error]) /\
  ~ In "Failed to build GitHub URL" shown.
Proof.
  cbv zeta.
  assert (shownErrors (events (openInGithub w)) = [] \/
          shownErrors (events (openInGithub w)) = ["No active editor found"] \/
          shownErrors (events (openInGithub w))
          = ["Could not determine GitHub repository information"] \/
          exists error, shownErrors (events (openInGithub w)) = ["Error: " ++ describe error])
    as C.
  { destruct (openInGithub_cases w)
      as [[e [_ [E _]]] | [[_ [_ [_ E]]] | [editor [filePath [sel [l0 [l1 [_ [_ E]]]]]]]]].
    - left. now rewrite E.
    - right. left. now rewrite E.
    - rewrite E. unfold tryCatch, showErrorMessage, emit.
      destruct (openInGithub_guarded_cases filePath sel (l0 + 1) (l1 + 1) w)
        as [[_ [O [_ Ev]]] | [info [_ [[e [O [Ev _]]] | [target [[e [O Ev]] | [url [O Ev]]]]]]]];
        rewrite O; cbn [outcome world events]; rewrite Ev.
      + right. right. left.
        now rewrite shownErrors_app, getRepoInfo_quiet.
      + right. right. right. exists e. reflexivity.
      + right. right. right. exists e. reflexivity.
      + left. reflexivity. }
  split; [exact C|].
  destruct C as [E | [E | [E | [e E]]]]; rewrite E; simpl; intuition discriminate.
Qed.

(** X14.  The callback ends by raising only when a read of the editor
    state raised that same exception; it has then run no command, shown
    nothing and opened nothing. *)
Theorem openInGithub_raises_only_from_reads (w : World) (error : Thrown) :
  outcome (openInGithub w) = Throw error ->
  (window_activeTextEditor w = Throw error \/
   exists editor,
     window_activeTextEditor w = Normal (Some editor) /\
     (document_uri_fsPath editor = Throw error \/
      selection editor = Throw error \/
      exists sel, selection editor = Normal sel /\
                  (start_line sel = Throw error \/ end_line sel = Throw error))) /\
  world (openInGithub w) = w /\
  events (openInGithub w) = [].
Proof.
  intros T.
  destruct (openInGithub_cases w)
    as [[e [O [E [W Rd]]]] | [[_ [O _]] | [editor [filePath [sel [l0 [l1 [_ [_ E]]]]]]]]].
  - rewrite O in T. injection T as <-. split; [exact Rd|]. split; [exact W | exact E].
  - congruence.
  - exfalso. rewrite E in T.
    destruct (tryCatch_returns
                (openInGithub_guarded filePath sel (l0 + 1) (l1 + 1))
                (fun error => showErrorMessage ("Error: " ++ describe error)) w) as [v V];
      [intros; eexists; reflexivity | congruence].
Qed.

(** X15.  In every execution [openExternal] is called at most once, and
    only after the resolver has returned a [RepoInfo] for the editor's
    file. *)
Theorem openInGithub_opens_at_most_once (w : World) :
  let opened := openedTargets (events (openInGithub w)) in
  (List.length opened <= 1)%nat /\
  (opened <> [] ->
   exists editor filePath info,
     window_activeTextEditor w = Normal (Some editor) /\
     document_uri_fsPath editor = Normal filePath /\
     outcome (getRepoInfo filePath w) = Normal (Some info)).
Proof.
  cbv zeta.
  destruct (openInGithub_cases w)
    as [[e [_ [E _]]] | [[_ [_ [_ E]]] | [editor [filePath [sel [l0 [l1 [Ed [Fp E]]]]]]]]].
  - rewrite E. simpl. split; [lia | congruence].
  - rewrite E. simpl. split; [lia | congruence].
  - rewrite E. unfold tryCatch, showErrorMessage, emit.
    destruct (openInGithub_guarded_cases filePath sel (l0 + 1) (l1 + 1) w)
      as [[_ [O [_ Ev]]] | [info [R [[e [O [Ev _]]] | [target [[e [O Ev]] | [url [O Ev]]]]]]]];
      rewrite O; cbn [outcome world events]; rewrite Ev.
    + rewrite openedTargets_app, getRepoInfo_opens_nothing. simpl. split; [lia | congruence].
    + simpl. split; [lia | congruence].
    + simpl. split; [lia|]. intros _. exists editor, filePath, info. repeat split; assumption.
    + simpl. split; [lia|]. intros _. exists editor, filePath, info. repeat split; assumption.
Qed.

End HandlerFacts.

Lemma openInGithub_no_editor_witness :
  @window_activeTextEditor (originHost "git@github.com:o/r.git") tt = Normal None /\
  events (@openInGithub (originHost "git@github.com:o/r.git") tt)
  = [ShowErrorMessage "No active editor found"].
Proof.
  split; [reflexivity|].
  apply (@openInGithub_no_editor (originHost "git@github.com:o/r.git") tt eq_refl).
Defined.

Lemma openInGithub_opens_url_witness :
  let h := stubHost (repoStub "/repo" "git@github.com:acme/widget.git" "feature"
                              (Normal (Some (selecting "/repo/src/file.ts" 4 7)))) in
  (0 <= 7)%Z /\
  outcome (@getRepoInfo h "/repo/src/file.ts" tt)
  = Normal (Some (MkRepoInfo "https://github.com/acme/widget" "feature" "/repo")) /\
  events (@openInGithub h tt)
  = [ OpenExternal (MkUri "https://github.com/acme/widget/blob/feature/src/file.ts#L5-L8");
      ConsoleLog "Opening https://github.com/acme/widget/blob/feature/src/file.ts#L5-L8" ].
Proof.
  cbv zeta. split; [lia|]. split; [reflexivity|].
  refine (proj2 (proj2
    (@openInGithub_opens_url
       (stubHost (repoStub "/repo" "git@github.com:acme/widget.git" "feature"
                           (Normal (Some (selecting "/repo/src/file.ts" 4 7)))))
       tt tt (selecting "/repo/src/file.ts" 4 7) "/repo/src/file.ts"
       (MkSelection (Normal 4%Z) (Normal 7%Z) (Normal false)) 4 7 false
       (MkRepoInfo "https://github.com/acme/widget" "feature" "/repo")
       (MkUri "https://github.com/acme/widget/blob/feature/src/file.ts#L5-L8")
       (Fulfilled true) eq_refl eq_refl eq_refl eq_refl eq_refl eq_refl _ eq_refl eq_refl
       eq_refl))).
  lia.
Defined.

Lemma openInGithub_resolver_failure_witness :
  outcome (@getRepoInfo notARepoHost "/tmp/notes.txt" tt) = Normal None /\
  shownErrors (events (@openInGithub notARepoHost tt))
  = ["Could not determine GitHub repository information"].
Proof.
  split; [reflexivity|].
  exact (proj1 (proj2 (proj2 (proj2
    (@openInGithub_resolver_failure notARepoHost tt (cursorAt "/tmp/notes.txt" 0)
       "/tmp/notes.txt" (MkSelection (Normal 0%Z) (Normal 0%Z) (Normal true)) 0 0
       eq_refl eq_refl eq_refl eq_refl eq_refl eq_refl))))).
Defined.

Lemma openInGithub_raises_only_from_reads_witness :
  outcome (@openInGithub brokenDocumentHost tt) = Throw (ErrorObject "document is closed") /\
  events (@openInGithub brokenDocumentHost tt) = [].
Proof.
  split; [reflexivity|].
  exact (proj2 (proj2
    (@openInGithub_raises_only_from_reads brokenDocumentHost tt
       (ErrorObject "document is closed") eq_refl))).
Defined.

(** A ref that cannot be read in a repository with commits: no branch,
    and no [RepoInfo]. *)
Example broken_ref_is_absent :
  outcome (@getCurrentBranch brokenRefHost "/mock/path" tt) = Normal None /\
  outcome (@getRepoInfo brokenRefHost "/mock/path/a.ts" tt) = Normal None /\
  events (@getRepoInfo brokenRefHost "/mock/path/a.ts" tt)
  = [ ConsoleError "Failed to get git repository information: Could not determine current branch or commit";
      ConsoleError "Git error details: Could not determine current branch or commit" ].
Proof. repeat split; reflexivity. Qed.
